(** * Verification of the Tesla SDK client core

    A shallow embedding of the authentication and token-cache core of the
    [tesla] package ([tesla/client.py]), of its request wrappers
    ([tesla/_request_wrappers.py]) and of the two endpoint classes whose
    construction the specification talks about ([tesla/energy.py],
    [tesla/vehicle/command.py]), followed by the properties of the
    specification that were checked against it.

    Python values are a small inductive type, dictionaries are finite maps,
    and every method is a function in a state-and-exception monad over the
    session object and the outside world (file system, trace of external
    calls).  The behaviour of the standard library and of [requests] /
    [requests_oauthlib], which the package only calls, is modelled in the
    modules [Py], [Base64], [Url], [Fs] and [OAuth2Session]. *)

From Stdlib Require Import ZArith NArith QArith Qround String Ascii List Bool
  DecimalString Lia.
From stdpp Require Import base option strings list gmap.

Set Warnings "-register-all".

#[local] Open Scope string_scope.
#[local] Open Scope list_scope.
#[local] Open Scope Z_scope.

(** ** Python values, exceptions and the operators the code applies *)

Module Py.

(** A [bytes] object; the package only builds ASCII ones. *)
Definition bytes := list ascii.

(** The values JSON can hold, which are also the values of tokens,
    cache records and API payloads.  Floats are the rationals they
    denote. *)
Inductive pyval : Type :=
| PNone
| PBool (b : bool)
| PInt (z : Z)
| PFloat (q : Q)
| PStr (s : string)
| PList (l : list pyval)
| PDict (d : gmap string pyval).

Inductive exn : Type :=
| TypeError
| KeyError
| AttributeError
| ValueError
| OverflowError
| FileNotFoundError
| PermissionError
| JSONDecodeError
| FileExistsError
| HTTPError (status : Z)
| LibraryError (name : string).

(** The outcome of a call: a value, a raised exception, or the model's
    recursion budget exhausted (which no [except] clause catches). *)
Inductive result (A : Type) : Type :=
| Ok (a : A)
| Raise (e : exn)
| OutOfFuel.
Arguments Ok {A} a.
Arguments Raise {A} e.
Arguments OutOfFuel {A}.

(** State-and-exception monad: the state survives a raise, as the
    mutations of a Python object do. *)
Definition M (S A : Type) : Type := S -> result A * S.

Definition ret {S A} (a : A) : M S A := fun s => (Ok a, s).

Definition bind {S A B} (m : M S A) (k : A -> M S B) : M S B :=
  fun s =>
    match m s with
    | (Ok a, s') => k a s'
    | (Raise e, s') => (Raise e, s')
    | (OutOfFuel, s') => (OutOfFuel, s')
    end.

Definition raise {S A} (e : exn) : M S A := fun s => (Raise e, s).
Definition out_of_fuel {S A} : M S A := fun s => (OutOfFuel, s).
Definition modify {S} (f : S -> S) : M S unit := fun s => (Ok tt, f s).

(** A pure computation that may raise. *)
Definition lift_result {S A} (r : result A) : M S A := fun s => (r, s).

(** [try: body / except BaseException: handler]. *)
Definition try_except {S A} (body : M S A) (handler : exn -> M S A) : M S A :=
  fun s =>
    match body s with
    | (Raise e, s') => handler e s'
    | other => other
    end.

#[global] Instance M_ret {S} : MRet (M S) := @ret S.
#[global] Instance M_bind {S} : MBind (M S) := fun A B k m => bind m k.

(** Truth value of an object, as [bool(x)], [if x] and [not x] take it. *)
Definition truthy (x : pyval) : bool :=
  match x with
  | PNone => false
  | PBool b => b
  | PInt z => negb (Z.eqb z 0)
  | PFloat q => negb (Qeq_bool q 0)
  | PStr s => negb (String.eqb s "")
  | PList l => match l with [] => false | _ => true end
  | PDict d => negb (bool_decide (d = ∅))
  end.

(** [x[k]] for a string key [k]: only a dict accepts it. *)
Definition getitem (x : pyval) (k : string) : result pyval :=
  match x with
  | PDict d => match d !! k with Some v => Ok v | None => Raise KeyError end
  | _ => Raise TypeError
  end.

(** [x.get(k, default)]: only a dict has the method. *)
Definition get_method (x : pyval) (k : string) (default : pyval) : result pyval :=
  match x with
  | PDict d => Ok (match d !! k with Some v => v | None => default end)
  | _ => Raise AttributeError
  end.

(** The number an [int], [float] or [bool] stands for: comparisons
    between an [int] and a [float] are exact. *)
Definition to_num (x : pyval) : option Q :=
  match x with
  | PInt z => Some (inject_Z z)
  | PFloat q => Some q
  | PBool b => Some (if b then 1%Q else 0%Q)
  | _ => None
  end.

(** [float(n)] of an [int], as the conversion behind [int - float] and
    [float + int] computes it: exact for an integer of at most 53
    significant bits, otherwise rounded to 53 significant bits, to the
    nearest and in a tie to the even significand; [OverflowError] when
    the result would reach [2**1024]. *)
Definition float_of_int (z : Z) : result Q :=
  let a := Z.abs z in
  let bits := if a =? 0 then 0 else Z.log2 a + 1 in
  let k := bits - 53 in
  if k <=? 0 then Ok (inject_Z z)
  else
    let m := a / 2 ^ k in
    let r := a mod 2 ^ k in
    let half := 2 ^ (k - 1) in
    let m' := if (half <? r) || ((r =? half) && Z.odd m) then m + 1 else m in
    let v := m' * 2 ^ k in
    if 2 ^ 1024 <=? v then Raise OverflowError
    else Ok (inject_Z (Z.sgn z * v)).

(** The float an operand of float arithmetic stands for: a [float]
    itself, an [int] (or [bool]) converted. *)
Definition as_float (x : pyval) : result Q :=
  match x with
  | PInt z => float_of_int z
  | PBool b => Ok (if b then 1%Q else 0%Q)
  | PFloat q => Ok q
  | _ => Raise TypeError
  end.

(** [x - t] for a float [t]: the left operand is converted to a float
    first.  The result is given as the exact difference of the two
    floats, of which the float Python computes is the rounding: the two
    have the same sign and are zero together (rounding to nearest is
    monotone, and a difference of two doubles that is not zero does not
    round to zero), and the package only compares the result with
    zero. *)
Definition sub_float (x : pyval) (t : Q) : result Q :=
  match as_float x with
  | Ok q => Ok (q - t)%Q
  | Raise e => Raise e
  | OutOfFuel => OutOfFuel
  end.

(** [x <= s] for a [str] [s]: defined between strings only (by code
    point, lexicographically); a number against a string raises. *)
Definition le_str (x : pyval) (s : string) : result bool :=
  match x with
  | PStr t => Ok (String.leb t s)
  | _ => Raise TypeError
  end.

(** [c < x] for a number [c] on the left. *)
Definition num_lt (c : Q) (x : pyval) : result bool :=
  match to_num x with
  | Some q => Ok (negb (Qle_bool q c))
  | None => Raise TypeError
  end.

(** [x < t] for a float [t] on the right. *)
Definition lt_float (x : pyval) (t : Q) : result bool :=
  match to_num x with
  | Some q => Ok (negb (Qle_bool t q))
  | None => Raise TypeError
  end.

(** [str(n)] for an integer. *)
Definition str_of_Z (n : Z) : string :=
  NilZero.string_of_int (Z.to_int n).

(** [s.zfill(width)]: zeros on the left, after a leading sign. *)
Definition zfill (width : nat) (s : string) : string :=
  let zeros := String.concat "" (replicate (width - String.length s)%nat "0") in
  match s with
  | String c t =>
      if Ascii.eqb c "+" || Ascii.eqb c "-" then String c (zeros +:+ t)
      else zeros +:+ s
  | EmptyString => zeros
  end.

End Py.
Export Py.

(** ** [base64.urlsafe_b64encode] and [bytes.rstrip] *)

Module Base64.

Definition std_alphabet : list ascii :=
  list_ascii_of_string
    "ABCDEFGHIJKLMNOPQRSTUVWXYZabcdefghijklmnopqrstuvwxyz0123456789+/".

Definition b64_char (i : N) : ascii := nth (N.to_nat i) std_alphabet "A"%char.

(** The 6-bit group of [n] that starts at bit [k]. *)
Definition sextet (k : N) (n : N) : N := N.land (N.shiftr n k) 63.

(** The 24-bit group of three input bytes. *)
Definition group24 (a b c : ascii) : N :=
  N.lor (N.shiftl (N_of_ascii a) 16)
        (N.lor (N.shiftl (N_of_ascii b) 8) (N_of_ascii c)).

Definition pad : ascii := "="%char.
Definition zero_byte : ascii := Ascii.zero.

(** [base64.b64encode]: three bytes give four characters; a last group
    of one or two bytes is padded with [=]. *)
Fixpoint b64encode (bs : bytes) : bytes :=
  match bs with
  | [] => []
  | [a] =>
      let n := group24 a zero_byte zero_byte in
      [b64_char (sextet 18 n); b64_char (sextet 12 n); pad; pad]
  | [a; b] =>
      let n := group24 a b zero_byte in
      [b64_char (sextet 18 n); b64_char (sextet 12 n); b64_char (sextet 6 n); pad]
  | a :: b :: c :: rest =>
      let n := group24 a b c in
      b64_char (sextet 18 n) :: b64_char (sextet 12 n)
        :: b64_char (sextet 6 n) :: b64_char (sextet 0 n) :: b64encode rest
  end.

(** [bytes.maketrans(b'+/', b'-_')]. *)
Definition urlsafe_translate (c : ascii) : ascii :=
  if Ascii.eqb c "+" then "-"%char
  else if Ascii.eqb c "/" then "_"%char
  else c.

(** [base64.urlsafe_b64encode]. *)
Definition urlsafe_b64encode (bs : bytes) : bytes :=
  map urlsafe_translate (b64encode bs).

(** [s.rstrip(c)] for a one-byte argument: every trailing [c] goes. *)
Fixpoint rstrip (c : ascii) (s : bytes) : bytes :=
  match s with
  | [] => []
  | x :: t =>
      match rstrip c t with
      | [] => if Ascii.eqb x c then [] else [x]
      | t' => x :: t'
      end
  end.





End Base64.


(** ** The outside world: cache file, HTTP, operator, clock, randomness *)

Module Http.

(** The body of a file or of an HTTP response: text that is a JSON
    document, or text [json] rejects. *)
Inductive text : Type :=
| NotJson
| JsonText (v : pyval).

Definition json_load (t : text) : result pyval :=
  match t with
  | JsonText v => Ok v
  | NotJson => Raise JSONDecodeError
  end.

(** A [requests.Response]; header names are kept in lower case, as the
    case-insensitive header dictionary compares them. *)
Record Response := {
  status_code : Z;
  resp_headers : gmap string string;
  body : text;
}.

(** [REDIRECT_STATI]. *)
Definition redirect_stati : list Z := [301; 302; 303; 307; 308].

(** [response.is_redirect]. *)
Definition is_redirect (r : Response) : bool :=
  bool_decide (is_Some (resp_headers r !! "location"))
  && existsb (Z.eqb (status_code r)) redirect_stati.

(** [response.ok]: [raise_for_status()] would not raise. *)
Definition ok (r : Response) : bool :=
  negb ((400 <=? status_code r) && (status_code r <? 600)).

(** [response.json()]. *)
Definition json (r : Response) : result pyval := json_load (body r).

(** Keyword arguments and query parameters, in the order given. *)
Definition kwargs := list (string * pyval).

Fixpoint kw_get (k : string) (kw : kwargs) : option pyval :=
  match kw with
  | [] => None
  | (k', v) :: rest => if String.eqb k k' then Some v else kw_get k rest
  end.

(** [kw[k] = v]: an existing key keeps its place. *)
Fixpoint kw_set (k : string) (v : pyval) (kw : kwargs) : kwargs :=
  match kw with
  | [] => [(k, v)]
  | (k', v') :: rest =>
      if String.eqb k k' then (k, v) :: rest else (k', v') :: kw_set k v rest
  end.

Definition kw_setdefault (k : string) (v : pyval) (kw : kwargs) : kwargs :=
  match kw_get k kw with
  | Some _ => kw
  | None => kw_set k v kw
  end.

(** What leaves the process, in order. *)
Inductive event : Type :=
| EvRequest (method url : string) (headers : gmap string string)
            (params data : option kwargs)
| EvSessionGet (url : string)
| EvFetchToken (url : string) (kw : kwargs)
| EvRefreshToken (url : string) (kw : kwargs)
| EvBrowserOpen (url : string)
| EvPrint (line : string)
| EvInput (prompt : string).

End Http.
Export Http.

Module Fs.

(** The cache file. *)
Record file := {
  readable : bool;
  writable : bool;
  data : text;
  mode : Z;
}.

(** The part of the file system [cache_file] lives in: the parent
    directory of the cache directory may itself be missing; the cache
    directory may be missing, under a parent the process can or cannot
    write to; or it exists and may hold the file. *)
Inductive fs : Type :=
| NoAncestor
| NoDirectory (parent_writable : bool)
| Directory (dir_writable : bool) (f : option file).

(** [open(cache_file)] followed by reading it. *)
Definition open_read (s : fs) : result text :=
  match s with
  | Directory _ (Some f) =>
      if readable f then Ok (data f) else Raise PermissionError
  | _ => Raise FileNotFoundError
  end.

(** [cache_file.parent.exists()]. *)
Definition parent_exists (s : fs) : bool :=
  match s with Directory _ _ => true | _ => false end.

(** [cache_file.parent.mkdir()], with the defaults [parents=False] and
    [exist_ok=False]. *)
Definition mkdir (s : fs) : result fs :=
  match s with
  | NoAncestor => Raise FileNotFoundError
  | NoDirectory true => Ok (Directory true None)
  | NoDirectory false => Raise PermissionError
  | Directory _ _ => Raise FileExistsError
  end.

(** Mode of a file the process creates (0o644). *)
Definition default_mode : Z := 420.

(** [dump(v, open(cache_file, 'w'))]: opening truncates or creates the
    file, then the document is written. *)
Definition open_write_dump (v : pyval) (s : fs) : result fs :=
  match s with
  | Directory w (Some f) =>
      if writable f
      then Ok (Directory w (Some {| readable := readable f; writable := true;
                                    data := JsonText v; mode := mode f |}))
      else Raise PermissionError
  | Directory w None =>
      if w
      then Ok (Directory w (Some {| readable := true; writable := true;
                                    data := JsonText v; mode := default_mode |}))
      else Raise PermissionError
  | _ => Raise FileNotFoundError
  end.

Definition S_IRUSR : Z := 256.
Definition S_IWUSR : Z := 128.
Definition S_IRGRP : Z := 32.

Definition owner_can (bit m : Z) : bool := negb (Z.land m bit =? 0).

(** [chmod(cache_file, m)] on a file the process owns. *)
Definition chmod (m : Z) (s : fs) : result fs :=
  match s with
  | Directory w (Some f) =>
      Ok (Directory w (Some {| readable := owner_can S_IRUSR m;
                               writable := owner_can S_IWUSR m;
                               data := data f; mode := m |}))
  | _ => Raise FileNotFoundError
  end.

End Fs.

(** The collaborators the package calls but does not define.  Each is a
    function of its arguments; [entropy] is the byte source behind
    [os.urandom], read at the position the world has reached. *)
Record Env := {
  time : Q;
  entropy : nat -> ascii;
  sha256 : bytes -> bytes;
  new_state : string;
  sso_get : string -> result Response;
  sso_fetch_token : string -> kwargs -> result pyval;
  sso_refresh_token : string -> kwargs -> result pyval;
  browser_open : string -> bool;
  input : string -> string;
  requests_get : string -> gmap string string -> option kwargs -> result Response;
  requests_post : string -> gmap string string -> option kwargs -> option kwargs
                  -> result Response;
  repr : pyval -> string;
  (* whether [urllib.parse] accepts a network location that has both
     [[] and []] (it checks the bracketed host with [ipaddress]) *)
  bracketed_netloc_ok : string -> bool;
  (* [int(s)] for a [str]: the integer, or nothing where it raises
     [ValueError] *)
  int_of_str : string -> option Z;
}.

(** The mutable world: the cache file's surroundings, the number of random
    bytes drawn so far, and the trace of external calls. *)
Record World := {
  fs : Fs.fs;
  drawn : nat;
  trace : list event;
}.

Definition emit (e : event) : M World unit :=
  modify (fun w => {| fs := fs w; drawn := drawn w; trace := trace w ++ [e] |}).

Definition set_fs (s : Fs.fs) : M World unit :=
  modify (fun w => {| fs := s; drawn := drawn w; trace := trace w |}).

(** [os.urandom(n)]. *)
Definition urandom (env : Env) (n : nat) : M World bytes :=
  fun w => (Ok (map (entropy env) (seq (drawn w) n)),
            {| fs := fs w; drawn := (drawn w + n)%nat; trace := trace w |}).

(** [str(x)] as an f-string interpolates it; the text of floats, lists
    and dicts is left to [repr]. *)
Definition format_value (env : Env) (x : pyval) : string :=
  match x with
  | PStr s => s
  | PInt z => str_of_Z z
  | PNone => "None"
  | PBool true => "True"
  | PBool false => "False"
  | _ => repr env x
  end.

(** [datetime.now().strftime('%s')]: the epoch seconds, in decimal. *)
Definition strftime_s (env : Env) : string := str_of_Z (Qfloor (time env)).

(** ** [urllib.parse]: splitting, joining and quoting URLs

    After CPython 3.11.  Text is a sequence of code points below 256,
    for which [_checknetloc] (the NFKC check of a non-ASCII network
    location) never raises; the check of a bracketed host, which goes
    through [ipaddress], is a collaborator of the environment. *)

Module Url.

(** The longest prefix of [s] free of characters satisfying [p], and the
    remainder (which starts with such a character, or is empty). *)
Fixpoint break_at (p : ascii -> bool) (s : string) : string * string :=
  match s with
  | EmptyString => (EmptyString, EmptyString)
  | String c t =>
      if p c then (EmptyString, s)
      else let '(a, b) := break_at p t in (String c a, b)
  end.

Definition tail (s : string) : string :=
  match s with EmptyString => EmptyString | String _ t => t end.

Fixpoint forall_chars (p : ascii -> bool) (s : string) : bool :=
  match s with
  | EmptyString => true
  | String c t => p c && forall_chars p t
  end.

(** [c in s] for a character [c]. *)
Fixpoint has_char (c : ascii) (s : string) : bool :=
  match s with
  | EmptyString => false
  | String x t => Ascii.eqb c x || has_char c t
  end.

Definition is_upper (c : ascii) : bool :=
  let n := N_of_ascii c in ((65 <=? n) && (n <=? 90))%N.
Definition is_lower (c : ascii) : bool :=
  let n := N_of_ascii c in ((97 <=? n) && (n <=? 122))%N.
Definition is_digit (c : ascii) : bool :=
  let n := N_of_ascii c in ((48 <=? n) && (n <=? 57))%N.
Definition is_alpha (c : ascii) : bool := is_upper c || is_lower c.

(** [scheme_chars]: letters, digits and [+-.]. *)
Definition scheme_char (c : ascii) : bool :=
  is_alpha c || is_digit c
  || Ascii.eqb c "+" || Ascii.eqb c "-" || Ascii.eqb c ".".

Definition lower_char (c : ascii) : ascii :=
  if is_upper c then ascii_of_N (N_of_ascii c + 32) else c.

Fixpoint lower (s : string) : string :=
  match s with
  | EmptyString => EmptyString
  | String c t => String (lower_char c) (lower t)
  end.

(** [s.startswith(p)]. *)
Fixpoint starts_with (p s : string) : bool :=
  match p, s with
  | EmptyString, _ => true
  | String a p', String b s' => Ascii.eqb a b && starts_with p' s'
  | String _ _, EmptyString => false
  end.

(** [_WHATWG_C0_CONTROL_OR_SPACE]: the code points up to the space. *)
Definition c0_or_space (c : ascii) : bool := (N_of_ascii c <=? 32)%N.

(** [_UNSAFE_URL_BYTES_TO_REMOVE]: tab, carriage return and line feed. *)
Definition unsafe (c : ascii) : bool :=
  let n := N_of_ascii c in ((n =? 9) || (n =? 13) || (n =? 10))%N.

(** [s.lstrip(chars)] and [s.rstrip(chars)], the characters given by a
    predicate. *)
Fixpoint lstrip (p : ascii -> bool) (s : string) : string :=
  match s with
  | EmptyString => EmptyString
  | String c t => if p c then lstrip p t else s
  end.

Fixpoint rstrip (p : ascii -> bool) (s : string) : string :=
  match s with
  | EmptyString => EmptyString
  | String c t =>
      match rstrip p t with
      | EmptyString => if p c then EmptyString else String c EmptyString
      | kept => String c kept
      end
  end.

Definition strip (p : ascii -> bool) (s : string) : string :=
  rstrip p (lstrip p s).

(** [s.replace(b, "")] for every character [b] satisfying [p]. *)
Fixpoint remove (p : ascii -> bool) (s : string) : string :=
  match s with
  | EmptyString => EmptyString
  | String c t => if p c then remove p t else String c (remove p t)
  end.

Record SplitResult := {
  scheme : string;
  netloc : string;
  path : string;
  query : string;
  fragment : string;
}.

(** The scheme of [url], when the text before its first [:] is one,
    and what follows the colon. *)
Definition split_scheme (url default_scheme : string) : string * string :=
  match break_at (Ascii.eqb ":") url with
  | (String c0 pre, String _ rest) =>
      if is_alpha c0 && forall_chars scheme_char (String c0 pre)
      then (lower (String c0 pre), rest)
      else (default_scheme, url)
  | _ => (default_scheme, url)
  end.

Definition is_delimiter (c : ascii) : bool :=
  Ascii.eqb c "/" || Ascii.eqb c "?" || Ascii.eqb c "#".

(** [_splitnetloc(url, 2)] when [url] starts with [//]. *)
Definition split_netloc (url : string) : string * string :=
  if starts_with "//" url then break_at is_delimiter (tail (tail url))
  else (EmptyString, url).

(** The checks [urlsplit] makes of a network location: [ValueError]
    for a bracket without its partner, and for a bracketed host that
    [_check_bracketed_netloc] refuses. *)
Definition check_netloc (env : Env) (netloc : string) : result unit :=
  let opening := has_char "[" netloc in
  let closing := has_char "]" netloc in
  if xorb opening closing then Raise ValueError
  else if opening && closing && negb (bracketed_netloc_ok env netloc)
  then Raise ValueError
  else Ok tt.

(** [url.split(c, 1)] when [c] occurs in [url], and [(url, '')]
    otherwise. *)
Definition split_once (c : ascii) (url : string) : string * string :=
  let '(a, b) := break_at (Ascii.eqb c) url in (a, tail b).

(** [urlsplit(url, scheme=default_scheme)]. *)
Definition urlsplit (env : Env) (url default_scheme : string)
    : result SplitResult :=
  let url := remove unsafe (lstrip c0_or_space url) in
  let default_scheme := remove unsafe (strip c0_or_space default_scheme) in
  let s := split_scheme url default_scheme in
  let n := split_netloc (snd s) in
  match (if starts_with "//" (snd s) then check_netloc env (fst n) else Ok tt) with
  | Ok _ =>
      let f := split_once "#" (snd n) in
      let q := split_once "?" (fst f) in
      Ok {| scheme := fst s; netloc := fst n; path := fst q; query := snd q;
            fragment := snd f |}
  | Raise e => Raise e
  | OutOfFuel => OutOfFuel
  end.

Definition uses_relative : list string :=
  [""; "ftp"; "http"; "gopher"; "nntp"; "imap"; "wais"; "file"; "https";
   "shttp"; "mms"; "prospero"; "rtsp"; "rtspu"; "sftp"; "svn"; "svn+ssh";
   "ws"; "wss"].

Definition uses_netloc : list string :=
  [""; "ftp"; "http"; "gopher"; "nntp"; "telnet"; "imap"; "wais"; "file";
   "mms"; "https"; "shttp"; "snews"; "prospero"; "rtsp"; "rtspu"; "rsync";
   "svn"; "svn+ssh"; "sftp"; "nfs"; "git"; "git+ssh"; "ws"; "wss"].

Definition uses_params : list string :=
  [""; "ftp"; "hdl"; "prospero"; "http"; "imap"; "https"; "shttp"; "rtsp";
   "rtspu"; "sip"; "sips"; "mms"; "sftp"; "tel"].

Definition mem (s : string) (l : list string) : bool :=
  existsb (String.eqb s) l.

Definition nonempty (s : string) : bool := negb (String.eqb s "").

(** The text up to and including the last [/] of [s], and the text
    after it; the first is empty when [s] has no [/]. *)
Fixpoint split_last_slash (s : string) : string * string :=
  match s with
  | EmptyString => (EmptyString, EmptyString)
  | String c t =>
      let '(front, back) := split_last_slash t in
      if has_char "/" t then (String c front, back)
      else if Ascii.eqb c "/" then (String c EmptyString, t)
      else (EmptyString, s)
  end.

(** [_splitparams(url)]: the parameters are what follows the first [;]
    of the last path segment. *)
Definition splitparams (url : string) : string * string :=
  let '(front, back) := split_last_slash url in
  match break_at (Ascii.eqb ";") back with
  | (segment, String _ params) => (front +:+ segment, params)
  | (_, EmptyString) => (url, EmptyString)
  end.

Record ParseResult := {
  p_scheme : string;
  p_netloc : string;
  p_path : string;
  p_params : string;
  p_query : string;
  p_fragment : string;
}.

(** [urlparse(url, scheme=default_scheme)]. *)
Definition urlparse (env : Env) (url default_scheme : string)
    : result ParseResult :=
  match urlsplit env url default_scheme with
  | Ok r =>
      let pp := if mem (scheme r) uses_params && has_char ";" (path r)
                then splitparams (path r)
                else (path r, EmptyString) in
      Ok {| p_scheme := scheme r; p_netloc := netloc r; p_path := fst pp;
            p_params := snd pp; p_query := query r; p_fragment := fragment r |}
  | Raise e => Raise e
  | OutOfFuel => OutOfFuel
  end.

(** [urlunsplit]. *)
Definition urlunsplit (r : SplitResult) : string :=
  let url := path r in
  let url :=
    if nonempty (netloc r)
       || (nonempty (scheme r) && mem (scheme r) uses_netloc
           && negb (starts_with "//" url))
    then
      let url := if nonempty url && negb (starts_with "/" url)
                 then "/" +:+ url else url in
      "//" +:+ netloc r +:+ url
    else url in
  let url := if nonempty (scheme r) then scheme r +:+ ":" +:+ url else url in
  let url := if nonempty (query r) then url +:+ "?" +:+ query r else url in
  if nonempty (fragment r) then url +:+ "#" +:+ fragment r else url.

(** [urlunparse]. *)
Definition urlunparse (r : ParseResult) : string :=
  urlunsplit
    {| scheme := p_scheme r; netloc := p_netloc r;
       path := if nonempty (p_params r) then p_path r +:+ ";" +:+ p_params r
               else p_path r;
       query := p_query r; fragment := p_fragment r |}.

(** [s.split('/')]. *)
Fixpoint split_slash (s : string) : list string :=
  match s with
  | EmptyString => [EmptyString]
  | String c t =>
      if Ascii.eqb c "/" then EmptyString :: split_slash t
      else match split_slash t with
           | [] => [String c EmptyString]
           | seg :: segs => String c seg :: segs
           end
  end.

(** ['/'.join(segments)]. *)
Definition join_slash (segs : list string) : string := String.concat "/" segs.

(** [segments[1:-1] = filter(None, segments[1:-1])]: the empty segments
    strictly inside the list are dropped. *)
Definition drop_inner_empty (segs : list string) : list string :=
  match segs with
  | [] => []
  | first :: rest =>
      match rev rest with
      | [] => [first]
      | last :: inner_rev =>
          first :: filter (fun s => nonempty s = true) (rev inner_rev) ++ [last]
      end
  end.

(** The loop of [urljoin] that resolves [.] and [..]. *)
Fixpoint resolve_dots (segs resolved : list string) : list string :=
  match segs with
  | [] => resolved
  | seg :: rest =>
      if String.eqb seg ".." then resolve_dots rest (removelast resolved)
      else if String.eqb seg "." then resolve_dots rest resolved
      else resolve_dots rest (resolved ++ [seg])
  end.

(** The path [urljoin] resolves a relative path to. *)
Definition merge_paths (bpath upath : string) : string :=
  let base_parts := split_slash bpath in
  let base_parts :=
    if nonempty (List.last base_parts "") then removelast base_parts
    else base_parts in
  let segments :=
    if starts_with "/" upath then split_slash upath
    else drop_inner_empty (base_parts ++ split_slash upath) in
  let resolved := resolve_dots segments [] in
  let resolved :=
    let l := List.last segments "" in
    if String.eqb l "." || String.eqb l ".." then resolved ++ [""]
    else resolved in
  let p := join_slash resolved in
  if nonempty p then p else "/".

(** [urljoin(base, url)]. *)
Definition urljoin (env : Env) (base url : string) : result string :=
  if negb (nonempty base) then Ok url
  else if negb (nonempty url) then Ok base
  else
    match urlparse env base "" with
    | Ok b =>
        match urlparse env url (p_scheme b) with
        | Ok u =>
            if negb (String.eqb (p_scheme u) (p_scheme b))
               || negb (mem (p_scheme u) uses_relative)
            then Ok url
            else if mem (p_scheme u) uses_netloc && nonempty (p_netloc u)
            then Ok (urlunparse u)
            else
              let net := if mem (p_scheme u) uses_netloc then p_netloc b
                         else p_netloc u in
              if negb (nonempty (p_path u)) && negb (nonempty (p_params u))
              then Ok (urlunparse
                         {| p_scheme := p_scheme u; p_netloc := net;
                            p_path := p_path b; p_params := p_params b;
                            p_query := if nonempty (p_query u) then p_query u
                                       else p_query b;
                            p_fragment := p_fragment u |})
              else Ok (urlunparse
                         {| p_scheme := p_scheme u; p_netloc := net;
                            p_path := merge_paths (p_path b) (p_path u);
                            p_params := p_params u; p_query := p_query u;
                            p_fragment := p_fragment u |})
        | Raise e => Raise e
        | OutOfFuel => OutOfFuel
        end
    | Raise e => Raise e
    | OutOfFuel => OutOfFuel
    end.

(** Hexadecimal digit, upper case, as [quote] writes it. *)
Definition hex_digit (n : N) : ascii :=
  if (n <? 10)%N then ascii_of_N (48 + n) else ascii_of_N (55 + n).

(** The characters [quote] never escapes. *)
Definition always_safe (c : ascii) : bool :=
  is_alpha c || is_digit c
  || Ascii.eqb c "_" || Ascii.eqb c "." || Ascii.eqb c "-" || Ascii.eqb c "~".

(** [%XX] for a byte, in front of [rest]. *)
Definition percent (n : N) (rest : string) : string :=
  String "%" (String (hex_digit (n / 16)) (String (hex_digit (n mod 16)) rest)).

(** [quote_plus(s)]: the text is encoded in UTF-8, and every byte that
    is not always safe is escaped. *)
Fixpoint quote_plus (s : string) : string :=
  match s with
  | EmptyString => EmptyString
  | String c t =>
      if always_safe c then String c (quote_plus t)
      else if Ascii.eqb c " " then String "+" (quote_plus t)
      else
        let n := N_of_ascii c in
        if (n <? 128)%N then percent n (quote_plus t)
        else percent (192 + n / 64) (percent (128 + n mod 64) (quote_plus t))
  end.

(** [urlencode(params)] for a list of pairs. *)
Definition urlencode (params : list (string * string)) : string :=
  String.concat "&"
    (map (fun kv => quote_plus (fst kv) +:+ "=" +:+ quote_plus (snd kv)) params).

End Url.

(** ** [tesla/_request_wrappers.py] *)

Module _request_wrappers.

(** What the wrappers read of their [tesla_object] argument. *)
Record TeslaObject := {
  base_url : string;
  headers : gmap string string;
}.

Definition is_HTTPError (e : exn) : bool :=
  match e with HTTPError _ => true | _ => false end.

(** [try: body / except cls as err: handler err]. *)
Definition try_except_when {S A} (cls : exn -> bool) (body : M S A)
    (handler : exn -> M S A) : M S A :=
  try_except body (fun e => if cls e then handler e else raise e).

(** [get(tesla_object, endpoint, params)]. *)
Definition get (env : Env) (tesla_object : TeslaObject) (endpoint : string)
    (params : option kwargs) : M World pyval :=
  url ← lift_result (Url.urljoin env (base_url tesla_object) endpoint);
  try_except_when is_HTTPError
    (emit (EvRequest "GET" url (headers tesla_object) params None);;
     response ← lift_result (requests_get env url (headers tesla_object) params);
     payload ← lift_result (json response);
     lift_result (getitem payload "response"))
    (fun err => raise err).

(** [post(tesla_object, endpoint, params, data)]. *)
Definition post (env : Env) (tesla_object : TeslaObject) (endpoint : string)
    (params data : option kwargs) : M World pyval :=
  url ← lift_result (Url.urljoin env (base_url tesla_object) endpoint);
  try_except_when is_HTTPError
    (emit (EvRequest "POST" url (headers tesla_object) params data);;
     response ← lift_result (requests_post env url (headers tesla_object) params data);
     payload ← lift_result (json response);
     lift_result (getitem payload "response"))
    (fun err => raise err).

End _request_wrappers.
Export _request_wrappers.

(** ** The session object of [tesla/client.py]

    [Client] extends [requests_oauthlib.OAuth2Session]; the record holds
    the attributes of both that the package reads or writes. *)

Module Objects.

(** [tesla.vehicle.command.Command]: [valet_pin] is absent until
    [set_valet_mode] or [reset_valet_pin] assigns it. *)
Record Command := {
  command_base_url : string;
  command_headers : gmap string string;
  valet_pin : option pyval;
}.

(** [tesla.vehicle.vehicle.Vehicle]. *)
Record Vehicle := {
  vehicle_data : gmap string pyval;
  vehicle_base_url : string;
  vehicle_headers : gmap string string;
  vehicle_Command : Command;
  vehicle_State : TeslaObject;
}.

Record Client := {
  (* requests_oauthlib.OAuth2Session *)
  client_id : string;
  redirect_uri : option string;
  scope : option string;
  token : pyval;
  access_token : option pyval;
  (* tesla.client.Client *)
  auto_refresh_kwargs : gmap string string;
  client_base_url : string;
  email : string;
  client_headers : gmap string string;
  sso_base_url : pyval;
  verify : bool;
  account : option TeslaObject;
  vehicles : option (list (pyval * Vehicle));
  code_verifier : option bytes;
}.

Definition with_token (v : pyval) (c : Client) : Client :=
  {| client_id := client_id c; redirect_uri := redirect_uri c; scope := scope c;
     token := v; access_token := access_token c;
     auto_refresh_kwargs := auto_refresh_kwargs c;
     client_base_url := client_base_url c; email := email c;
     client_headers := client_headers c; sso_base_url := sso_base_url c;
     verify := verify c; account := account c; vehicles := vehicles c;
     code_verifier := code_verifier c |}.

Definition with_access_token (a : option pyval) (c : Client) : Client :=
  {| client_id := client_id c; redirect_uri := redirect_uri c; scope := scope c;
     token := token c; access_token := a;
     auto_refresh_kwargs := auto_refresh_kwargs c;
     client_base_url := client_base_url c; email := email c;
     client_headers := client_headers c; sso_base_url := sso_base_url c;
     verify := verify c; account := account c; vehicles := vehicles c;
     code_verifier := code_verifier c |}.

Definition with_sso_base_url (u : pyval) (c : Client) : Client :=
  {| client_id := client_id c; redirect_uri := redirect_uri c; scope := scope c;
     token := token c; access_token := access_token c;
     auto_refresh_kwargs := auto_refresh_kwargs c;
     client_base_url := client_base_url c; email := email c;
     client_headers := client_headers c; sso_base_url := u;
     verify := verify c; account := account c; vehicles := vehicles c;
     code_verifier := code_verifier c |}.

Definition with_account (a : option TeslaObject) (c : Client) : Client :=
  {| client_id := client_id c; redirect_uri := redirect_uri c; scope := scope c;
     token := token c; access_token := access_token c;
     auto_refresh_kwargs := auto_refresh_kwargs c;
     client_base_url := client_base_url c; email := email c;
     client_headers := client_headers c; sso_base_url := sso_base_url c;
     verify := verify c; account := a; vehicles := vehicles c;
     code_verifier := code_verifier c |}.

Definition with_vehicles (v : option (list (pyval * Vehicle))) (c : Client) : Client :=
  {| client_id := client_id c; redirect_uri := redirect_uri c; scope := scope c;
     token := token c; access_token := access_token c;
     auto_refresh_kwargs := auto_refresh_kwargs c;
     client_base_url := client_base_url c; email := email c;
     client_headers := client_headers c; sso_base_url := sso_base_url c;
     verify := verify c; account := account c; vehicles := v;
     code_verifier := code_verifier c |}.

Definition with_code_verifier (v : option bytes) (c : Client) : Client :=
  {| client_id := client_id c; redirect_uri := redirect_uri c; scope := scope c;
     token := token c; access_token := access_token c;
     auto_refresh_kwargs := auto_refresh_kwargs c;
     client_base_url := client_base_url c; email := email c;
     client_headers := client_headers c; sso_base_url := sso_base_url c;
     verify := verify c; account := account c; vehicles := vehicles c;
     code_verifier := v |}.

(** The state a method of the session runs in. *)
Definition CW : Type := Client * World.

Definition in_world {A} (m : M World A) : M CW A :=
  fun s => let '(r, w) := m (snd s) in (r, (fst s, w)).

Definition get_client : M CW Client := fun s => (Ok (fst s), s).
Definition get_world : M CW World := fun s => (Ok (snd s), s).
Definition update_client (f : Client -> Client) : M CW unit :=
  fun s => (Ok tt, (f (fst s), snd s)).

(** The [Authorization] header every endpoint class adds to the
    session's headers: [{**client.headers, 'Authorization': f'Bearer ...'}]. *)
Definition bearer_headers (env : Env) (client : Client)
    : result (gmap string string) :=
  match getitem (token client) "access_token" with
  | Ok t => Ok (<["Authorization" := "Bearer " +:+ format_value env t]>
                  (client_headers client))
  | Raise e => Raise e
  | OutOfFuel => OutOfFuel
  end.

End Objects.
Export Objects.

(** ** [tesla/account.py] *)

Module Account.

(** [Account(client)]. *)
Definition __init__ (env : Env) (client : Client) : result TeslaObject :=
  match bearer_headers env client with
  | Ok h => Ok {| base_url := client_base_url client; headers := h |}
  | Raise e => Raise e
  | OutOfFuel => OutOfFuel
  end.

(** The [vehicles] property. *)
Definition vehicles (env : Env) (self : TeslaObject) : M World pyval :=
  get env self "vehicles" None.

End Account.

(** ** [tesla/energy.py] *)

Module Energy.

(** [Energy(client, site_id)]: the base URL is a plain string literal,
    not an f-string. *)
Definition __init__ (env : Env) (client : Client) (site_id : string)
    : result TeslaObject :=
  match bearer_headers env client with
  | Ok h =>
      Ok {| base_url :=
              "https://owner-api.teslamotors.com/api/1/energy_sites/{site_id}/";
            headers := h |}
  | Raise e => Raise e
  | OutOfFuel => OutOfFuel
  end.

Definition get_backup_time_remaining (env : Env) (self : TeslaObject) : M World pyval :=
  get env self "backup_time_remaining" None.

Definition get_live_status (env : Env) (self : TeslaObject) : M World pyval :=
  get env self "live_status" None.

Definition get_programs (env : Env) (self : TeslaObject) : M World pyval :=
  get env self "programs" None.

Definition get_site_info (env : Env) (self : TeslaObject) : M World pyval :=
  get env self "site_info" None.

Definition get_site_status (env : Env) (self : TeslaObject) : M World pyval :=
  get env self "site_status" None.

Definition get_tariff_rate (env : Env) (self : TeslaObject) : M World pyval :=
  get env self "tariff_rate" None.

(** [history(kind, period)]. *)
Definition history (env : Env) (self : TeslaObject) (kind period : pyval)
    : M World pyval :=
  get env self "history" (Some [("kind", kind); ("period", period)]).

(** [calendar_history(kind, end_date, interval, period)], the date
    already formatted. *)
Definition calendar_history (env : Env) (self : TeslaObject)
    (kind end_date interval period : pyval) : M World pyval :=
  get env self "calendar_history"
    (Some [("kind", kind); ("end_date", end_date); ("period", period);
           ("interval", interval)]).

(** The endpoints the methods above pass to [get]. *)
Definition endpoints : list string :=
  ["calendar_history"; "backup_time_remaining"; "live_status"; "programs";
   "site_info"; "site_status"; "tariff_rate"; "history"].

End Energy.

(** ** [tesla/vehicle/command.py] and [tesla/vehicle/vehicle.py] *)

Module Command.

(** [random.randint(a, b)]: an integer between [a] and [b] inclusive,
    determined by the generator's raw output. *)
Definition randint (a b : Z) (raw : N) : Z := a + Z.of_N raw mod (b - a + 1).

(** What executing the class body leaves in the class: the default of
    [set_valet_mode]'s [valet_pin] parameter, computed when the [def]
    statement runs. *)
Record class := {
  set_valet_mode_default_valet_pin : pyval;
}.

(** Executing [class Command(): ...], the generator giving [raw]. *)
Definition class_body (raw : N) : class :=
  {| set_valet_mode_default_valet_pin := PInt (randint 0 1000 raw) |}.

(** [Command(parent_class)]. *)
Definition __init__ (parent_base_url : string)
    (parent_headers : gmap string string) : Command :=
  {| command_base_url := parent_base_url; command_headers := parent_headers;
     valet_pin := None |}.

Definition as_object (self : Command) : TeslaObject :=
  {| base_url := command_base_url self; headers := command_headers self |}.

Definition in_world {A} (m : M World A) : M (Command * World) A :=
  fun s => let '(r, w) := m (snd s) in (r, (fst s, w)).

(** [set_valet_mode(on, valet_pin)]; [valet_pin = None] stands for a
    call that omits the argument. *)
Definition set_valet_mode (env : Env) (cls : class) (on : bool)
    (valet_pin_arg : option pyval) : M (Command * World) pyval :=
  let valet_pin_value :=
    match valet_pin_arg with
    | Some v => v
    | None => set_valet_mode_default_valet_pin cls
    end in
  let pin := zfill 4 (format_value env valet_pin_value) in
  modify (fun s : Command * World =>
            ({| command_base_url := command_base_url (fst s);
                command_headers := command_headers (fst s);
                valet_pin := Some (PStr pin) |}, snd s));;
  self ← (fun s => (Ok (fst s), s));
  in_world (post env (as_object self) "command/set_valet_mode"
                 (Some [("password", PStr pin)]) None).

End Command.

Module Vehicle.

(** [Vehicle(client, data)] with the default [licence_plate=None]. *)
Definition __init__ (env : Env) (client : Client) (data : pyval) : result Vehicle :=
  match data with
  | PDict d =>
      match d !! "id" with
      | None => Raise KeyError
      | Some id =>
          match Url.urljoin env (client_base_url client)
                  ("vehicles/" +:+ format_value env id +:+ "/") with
          | Ok url =>
              match bearer_headers env client with
              | Ok h =>
                  Ok {| vehicle_data := <["licence_plate" := PStr "None"]> d;
                        vehicle_base_url := url;
                        vehicle_headers := h;
                        vehicle_Command := Command.__init__ url h;
                        vehicle_State := {| base_url := url; headers := h |} |}
              | Raise e => Raise e
              | OutOfFuel => OutOfFuel
              end
          | Raise e => Raise e
          | OutOfFuel => OutOfFuel
          end
      end
  | _ => Raise TypeError
  end.

End Vehicle.

(** ** [requests_oauthlib.OAuth2Session], as far as [Client] relies on it *)

Module OAuth2Session.

Fixpoint is_substring_from (p s : string) (fuel : nat) : bool :=
  match fuel with
  | O => String.prefix p s
  | S n =>
      String.prefix p s
      || match s with
         | EmptyString => false
         | String _ t => is_substring_from p t n
         end
  end.

Definition is_substring (p s : string) : bool :=
  is_substring_from p s (String.length s).

Definition is_PStr (k : string) (x : pyval) : bool :=
  match x with PStr s => String.eqb s k | _ => false end.

(** [k in response]. *)
Definition contains (response : pyval) (k : string) : result bool :=
  match response with
  | PDict d => Ok (bool_decide (is_Some (d !! k)))
  | PStr s => Ok (is_substring k s)
  | PList l => Ok (existsb (is_PStr k) l)
  | _ => Raise TypeError
  end.

(** [self.authorized]: [bool(self.access_token)], a deleted attribute
    reading as [None]. *)
Definition authorized (c : Client) : bool :=
  match access_token c with
  | Some a => truthy a
  | None => false
  end.

(** [int(x)]. *)
Definition int_of (env : Env) (x : pyval) : result Z :=
  match x with
  | PInt z => Ok z
  | PBool b => Ok (if b then 1 else 0)
  | PFloat q => Ok (if Qle_bool 0 q then Qfloor q else Qceiling q)
  | PStr s =>
      match int_of_str env s with
      | Some z => Ok z
      | None => Raise ValueError
      end
  | _ => Raise TypeError
  end.

(** [if k in response: ... = response.get(k)]: the value the library
    copies into one of its attributes, if the key is there. *)
Definition copied (response : pyval) (k : string) : result (option pyval) :=
  match contains response k with
  | Ok true =>
      match get_method response k PNone with
      | Ok v => Ok (Some v)
      | Raise e => Raise e
      | OutOfFuel => OutOfFuel
      end
  | Ok false => Ok None
  | Raise e => Raise e
  | OutOfFuel => OutOfFuel
  end.

(** [self.token = value]: the token is stored and
    [populate_token_attributes] copies what it finds in it.  Of the
    attributes it sets the session reads [access_token] only; a value
    without that key leaves the attribute as it was.  [expires_in] is
    converted with [time.time() + int(...)], which can raise; the
    conversion of [expires_at] is guarded by [try]. *)
Definition set_token (env : Env) (value : pyval) : M CW unit :=
  update_client (with_token value);;
  a ← lift_result (copied value "access_token");
  (match a with
   | Some v => update_client (with_access_token (Some v))
   | None => ret tt
   end);;
  lift_result (copied value "refresh_token");;
  lift_result (copied value "token_type");;
  e ← lift_result (copied value "expires_in");
  (match e with
   | Some v => n ← lift_result (int_of env v); lift_result (float_of_int n);; ret tt
   | None => ret tt
   end);;
  lift_result (contains value "expires_at");;
  lift_result (copied value "mac_key");;
  lift_result (copied value "mac_algorithm");;
  ret tt.

(** [del self.access_token]. *)
Definition del_access_token : M CW unit :=
  c ← get_client;
  match access_token c with
  | Some _ => update_client (with_access_token None)
  | None => raise AttributeError
  end.

Definition kw_text := list (string * string).

Fixpoint kwt_get (k : string) (kw : kw_text) : option string :=
  match kw with
  | [] => None
  | (k', v) :: rest => if String.eqb k k' then Some v else kwt_get k rest
  end.

Fixpoint kwt_set (k v : string) (kw : kw_text) : kw_text :=
  match kw with
  | [] => [(k, v)]
  | (k', v') :: rest =>
      if String.eqb k k' then (k, v) :: rest else (k', v') :: kwt_set k v rest
  end.

Definition kwt_remove (k : string) (kw : list (string * string))
    : list (string * string) :=
  filter (fun kv => negb (String.eqb k (fst kv)) = true) kw.

Definition opt_param (k : string) (v : option string) : kw_text :=
  match v with
  | Some s => if Url.nonempty s then [(k, s)] else []
  | None => []
  end.

(** [prepare_grant_uri]: the query the library appends, in its order. *)
Definition grant_params (c : Client) (state : string) (kw : kw_text) : kw_text :=
  [("response_type", "code"); ("client_id", client_id c)]
  ++ opt_param "redirect_uri" (redirect_uri c)
  ++ opt_param "scope" (scope c)
  ++ opt_param "state" (Some state)
  ++ match kwt_get "code_challenge" kw with
     | Some ch =>
         [("code_challenge", ch);
          ("code_challenge_method",
           match kwt_get "code_challenge_method" kw with
           | Some m => m
           | None => "plain"
           end)]
     | None => []
     end
  ++ filter (fun kv => Url.nonempty (snd kv) = true)
       (kwt_remove "code_challenge" (kwt_remove "code_challenge_method" kw)).

(** [add_params_to_uri]; a query the URI already has is kept in front. *)
Definition add_params_to_uri (env : Env) (uri : string) (params : kw_text)
    : result string :=
  match Url.urlparse env uri "" with
  | Ok r =>
      Ok (Url.urlunparse
            {| Url.p_scheme := Url.p_scheme r; Url.p_netloc := Url.p_netloc r;
               Url.p_path := Url.p_path r; Url.p_params := Url.p_params r;
               Url.p_query := if Url.nonempty (Url.p_query r)
                              then Url.p_query r +:+ "&" +:+ Url.urlencode params
                              else Url.urlencode params;
               Url.p_fragment := Url.p_fragment r |})
  | Raise e => Raise e
  | OutOfFuel => OutOfFuel
  end.

Definition is_secure_transport (uri : string) : bool :=
  Url.starts_with "https://" (Url.lower uri).

Definition InsecureTransportError : exn := LibraryError "InsecureTransportError".

(** [OAuth2Session.authorization_url(url, state=None, **kwargs)]:
    returns the URL and the state it carries. *)
Definition authorization_url (env : Env) (url : string) (kw : kw_text)
    : M CW (string * string) :=
  c ← get_client;
  let state :=
    match kwt_get "state" kw with
    | Some s => if Url.nonempty s then s else new_state env
    | None => new_state env
    end in
  if is_secure_transport url
  then
    uri ← lift_result (add_params_to_uri env url
                         (grant_params c state (kwt_remove "state" kw)));
    ret (uri, state)
  else raise InsecureTransportError.

(** [OAuth2Session.fetch_token(token_url, **kwargs)]: on success the
    token the endpoint issued becomes the session's token. *)
Definition fetch_token (env : Env) (token_url : string) (kw : kwargs)
    : M CW pyval :=
  in_world (emit (EvFetchToken token_url kw));;
  tok ← lift_result (sso_fetch_token env token_url kw);
  set_token env tok;;
  ret tok.

(** [OAuth2Session.refresh_token(token_url, **kwargs)]. *)
Definition refresh_token (env : Env) (token_url : string) (kw : kwargs)
    : M CW pyval :=
  in_world (emit (EvRefreshToken token_url kw));;
  tok ← lift_result (sso_refresh_token env token_url kw);
  set_token env tok;;
  ret tok.

(** [self.get(url, allow_redirects=False)]. *)
Definition get (env : Env) (url : string) : M CW Response :=
  in_world (emit (EvSessionGet url));;
  lift_result (sso_get env url).

End OAuth2Session.

(** ** [tesla/client.py] *)

Module Client.

Import OAuth2Session.

Definition default_user_agent : string := "tesla.client/0.1.2".
Definition default_sso_base_url : string := "https://auth.tesla.com".
Definition default_app_user_agent : string := "TeslaApp/4.10.0".

(** [Client(email, user_agent, cache_file, sso_base_url, app_user_agent,
    verify)]; the cache file is the one of the world. *)
Definition __init__ (email user_agent sso_base_url app_user_agent : string)
    (verify : bool) : result Client :=
  if negb (Url.nonempty email) then Raise ValueError
  else
    Ok {| client_id := "ownerapi";
          redirect_uri := None;
          scope := None;
          token := PStr "";
          access_token := Some PNone;
          auto_refresh_kwargs := {["client_id" := "ownerapi"]};
          client_base_url := "https://owner-api.teslamotors.com/api/1/";
          email := email;
          client_headers :=
            <["Content-Type" := "application/json"]>
              (<["User-Agent" := user_agent]>
                 (<["X-Tesla-User-Agent" := app_user_agent]> ∅));
          sso_base_url := PStr sso_base_url;
          verify := verify;
          account := None;
          vehicles := None;
          code_verifier := None |}.

(** The [expires_at] property. *)
Definition expires_at : M CW pyval :=
  c ← get_client;
  lift_result (get_method (token c) "expires_at" PNone).

(** The [expired] property: [self.expires_at - time() <= 0]. *)
Definition expired (env : Env) : M CW bool :=
  e ← expires_at;
  d ← lift_result (sub_float e (time env));
  ret (Qle_bool d 0).

(** [self.expired = True]: the property has no setter. *)
Definition set_expired (value : bool) : M CW unit := raise AttributeError.

(** [_new_code_verifier()]. *)
Definition _new_code_verifier (env : Env) : M CW bytes :=
  random ← in_world (urandom env 32);
  ret (Base64.rstrip "=" (Base64.urlsafe_b64encode random)).

(** [_authenticate(url)]. *)
Definition _authenticate (env : Env) (url : string) : M CW string :=
  in_world (emit (EvPrint "Use browser to login. Page Not Found will be shown at success."));;
  in_world (emit (EvBrowserOpen url));;
  (if browser_open env url then ret tt
   else in_world (emit (EvPrint ("Open this URL to authenticate: " +:+ url))));;
  in_world (emit (EvInput "Enter URL after authentication: "));;
  ret (input env "Enter URL after authentication: ").

(** [_load_cache()]. *)
Definition _load_cache (env : Env) : M CW pyval :=
  try_except
    (w ← get_world;
     content ← lift_result (Fs.open_read (fs w));
     cache ← lift_result (json_load content);
     c ← get_client;
     record ← lift_result (getitem cache (email c));
     sso ← lift_result (getitem record "sso");
     at_ ← lift_result (getitem sso "expires_at");
     is_past ← lift_result (le_str at_ (strftime_s env));
     (if is_past : bool then set_expired true else ret tt);;
     ret cache)
    (fun _ =>
       w ← get_world;
       (if negb (Fs.parent_exists (fs w))
        then d ← lift_result (Fs.mkdir (fs w)); in_world (set_fs d)
        else ret tt);;
       ret (PDict ∅)).

(** [IOError], which is [OSError]. *)
Definition is_IOError (e : exn) : bool :=
  match e with
  | FileNotFoundError | PermissionError | FileExistsError => true
  | _ => false
  end.

Definition cache_mode : Z :=
  Z.lor (Z.lor Fs.S_IWUSR Fs.S_IRUSR) Fs.S_IRGRP.

(** [_dump_cache(cache)]. *)
Definition _dump_cache (cache : pyval) : M CW unit :=
  try_except_when is_IOError
    (w ← get_world;
     written ← lift_result (Fs.open_write_dump cache (fs w));
     in_world (set_fs written);;
     changed ← lift_result (Fs.chmod cache_mode written);
     in_world (set_fs changed))
    (fun _ => ret tt).

(** [urljoin(self.sso_base_url, path)], the base being whatever the
    attribute holds. *)
Definition urljoin_base (env : Env) (base : pyval) (url : string)
    : result string :=
  match base with
  | PStr s => Url.urljoin env s url
  | _ => if truthy base then Raise TypeError else Ok url
  end.

(** [_token_updater()], its call of [self.fetch_token()] abstracted as
    [fetch]; the [token] parameter is never read. *)
Definition _token_updater_with (fetch : M CW pyval) (env : Env) : M CW unit :=
  cache ← _load_cache env;
  match cache with
  | PDict d =>
      c ← get_client;
      write ← (if authorized c
               then e ← expired env; ret (negb e)
               else ret false);
      if write : bool then
        c ← get_client;
        let record : gmap string pyval :=
          <["url" := sso_base_url c]> (<["sso" := token c]> ∅) in
        _dump_cache (PDict (<[email c := PDict record]> d))
      else
        match d !! email c with
        | Some record =>
            c ← get_client;
            url ← lift_result (get_method record "url" (sso_base_url c));
            update_client (with_sso_base_url url);;
            sso ← lift_result (get_method record "sso" (PDict ∅));
            set_token env sso;;
            c ← get_client;
            if negb (truthy (token c)) then ret tt
            else
              at_ ← expires_at;
              positive ← lift_result (num_lt 0 at_);
              past ← (if positive : bool
                      then lift_result (lt_float at_ (time env))
                      else ret false);
              if past : bool then fetch;; ret tt else ret tt
        | None => ret tt
        end
  | _ => raise ValueError
  end.

(** [authorization_url(auth_url_path, **kwargs)]. *)
Definition authorization_url (env : Env) (auth_url_path : string) (kw : kw_text)
    : M CW (option string) :=
  c ← get_client;
  if authorized c then ret None
  else
    verifier ← _new_code_verifier env;
    update_client (with_code_verifier (Some verifier));;
    let challenge :=
      Base64.rstrip "=" (Base64.urlsafe_b64encode (sha256 env verifier)) in
    let kw := kwt_set "code_challenge" (string_of_list_ascii challenge) kw in
    let kw := kwt_set "code_challenge_method" "S256" kw in
    url ← lift_result (urljoin_base env (sso_base_url c) auth_url_path);
    '(without_hint, state) ← OAuth2Session.authorization_url env url kw;
    let kw := kwt_set "login_hint" (email c) kw in
    let kw := kwt_set "state" state kw in
    '(with_hint, _) ← OAuth2Session.authorization_url env url kw;
    response ← OAuth2Session.get env with_hint;
    with_hint ←
      (if is_redirect response then
         match resp_headers response !! "location" with
         | Some location =>
             origin ← lift_result (Url.urljoin env location "/");
             update_client (with_sso_base_url (PStr origin));;
             ret location
         | None => raise KeyError
         end
       else ret with_hint);
    ret (Some (if ok response then with_hint else without_hint)).

Definition default_auth_url_path : string := "/oauth2/v3/authorize".
Definition default_token_path : string := "oauth2/v3/token".

(** [fetch_token(token_path, **kwargs)]; [fuel] bounds the nesting of
    [fetch_token] and [_token_updater] calls. *)
Fixpoint fetch_token (fuel : nat) (env : Env) (token_path : string) (kw : kwargs)
    : M CW pyval :=
  match fuel with
  | O => out_of_fuel
  | S fuel' =>
      c ← get_client;
      if authorized c then ret (token c)
      else
        kw ← match kw_get "authorization_response" kw with
             | Some PNone | None =>
                 url ← authorization_url env default_auth_url_path [];
                 answer ← _authenticate env
                            (match url with Some u => u | None => "None" end);
                 ret (kw_set "authorization_response" (PStr answer) kw)
             | Some _ => ret kw
             end;
        let kw := kw_set "include_client_id" (PBool true) kw in
        c ← get_client;
        kw ← match code_verifier c with
             | Some v => ret (kw_setdefault "code_verifier"
                                (PStr (string_of_list_ascii v)) kw)
             | None => raise AttributeError
             end;
        c ← get_client;
        let kw := kw_setdefault "verify" (PBool (verify c)) kw in
        url ← lift_result (urljoin_base env (sso_base_url c) token_path);
        OAuth2Session.fetch_token env url kw;;
        _token_updater_with (fetch_token fuel' env default_token_path []) env;;
        c ← get_client;
        a ← lift_result (Account.__init__ env c);
        update_client (with_account (Some a));;
        c ← get_client;
        ret (token c)
  end.

(** [_token_updater()]. *)
Definition _token_updater (fuel : nat) (env : Env) : M CW unit :=
  _token_updater_with (fetch_token fuel env default_token_path []) env.

(** [refresh_token(token_path, **kwargs)]. *)
Definition refresh_token (fuel : nat) (env : Env) (token_path : string)
    (kw : kwargs) : M CW pyval :=
  c ← get_client;
  if negb (authorized c)
     && negb (match kw_get "refresh_token" kw with
              | Some v => truthy v
              | None => false
              end)
  then raise ValueError
  else
    let kw := kw_setdefault "verify" (PBool (verify c)) kw in
    url ← lift_result (urljoin_base env (sso_base_url c) token_path);
    OAuth2Session.refresh_token env url kw;;
    _token_updater fuel env;;
    c ← get_client;
    ret (token c).

Definition logout_path : string := "/oauth2/v3/logout?client_id=ownerapi".

(** [logout(sign_out)]. *)
Definition logout (fuel : nat) (env : Env) (sign_out : bool)
    : M CW (option string) :=
  c ← get_client;
  if negb (authorized c) then ret None
  else
    url ← lift_result (urljoin_base env (sso_base_url c) logout_path);
    (if sign_out then
       in_world (emit (EvBrowserOpen url));;
       (if browser_open env url then ret tt
        else in_world (emit (EvPrint ("Open this URL to sign out: " +:+ url))))
     else ret tt);;
    set_token env (PDict ∅);;
    _token_updater fuel env;;
    del_access_token;;
    ret (Some url).

(** Iterating over a JSON value, as the comprehension in [login] does
    (a dict yields its keys; the map keeps no insertion order, so they
    come in the map's own order). *)
Definition iterate (x : pyval) : result (list pyval) :=
  match x with
  | PList l => Ok l
  | PDict d => Ok (map (fun kv => PStr (fst kv)) (map_to_list d))
  | PStr s => Ok (map (fun ch => PStr (String ch EmptyString)) (list_ascii_of_string s))
  | _ => Raise TypeError
  end.

Definition hashable (k : pyval) : bool :=
  match k with PList _ | PDict _ => false | _ => true end.

(** [{vehicle['display_name']: Vehicle(self, vehicle) for vehicle in ...}]:
    the items in the order they are stored (when the dictionary is read,
    a later item overrides an earlier one with an equal key). *)
Fixpoint map_vehicles (env : Env) (client : Client) (items : list pyval)
    (acc : list (pyval * Vehicle)) : result (list (pyval * Vehicle)) :=
  match items with
  | [] => Ok acc
  | vehicle :: rest =>
      match getitem vehicle "display_name" with
      | Ok name =>
          match Vehicle.__init__ env client vehicle with
          | Ok v =>
              if hashable name
              then map_vehicles env client rest (acc ++ [(name, v)])
              else Raise TypeError
          | Raise e => Raise e
          | OutOfFuel => OutOfFuel
          end
      | Raise e => Raise e
      | OutOfFuel => OutOfFuel
      end
  end.

(** [login()]. *)
Definition login (fuel : nat) (env : Env) : M CW unit :=
  _token_updater fuel env;;
  fetch_token fuel env default_token_path [];;
  c ← get_client;
  match account c with
  | Some a =>
      listed ← in_world (Account.vehicles env a);
      items ← lift_result (iterate listed);
      c ← get_client;
      vs ← lift_result (map_vehicles env c items []);
      update_client (with_vehicles (Some vs))
  | None => raise AttributeError
  end.

End Client.

(** ** Vocabulary of the properties, and concrete inputs *)

(** What a wrapper hands back for a given answer of the transport: the
    [response] member of the JSON body, whatever the status code. *)
Definition envelope (answer : result Response) : result pyval :=
  match answer with
  | Ok response =>
      match json response with
      | Ok payload => getitem payload "response"
      | Raise e => Raise e
      | OutOfFuel => OutOfFuel
      end
  | Raise e => Raise e
  | OutOfFuel => OutOfFuel
  end.

Definition is_refresh (e : event) : bool :=
  match e with EvRefreshToken _ _ => true | _ => false end.

Definition is_request (e : event) : bool :=
  match e with EvRequest _ _ _ _ _ => true | _ => false end.

(** How many times the library's [refresh_token] was called. *)
Definition refresh_calls (tr : list event) : nat :=
  length (filter (fun e => is_refresh e = true) tr).

(** A computation that only adds to the trace, and never a call of the
    library's [refresh_token]. *)
Definition refresh_free {A} (m : M CW A) : Prop :=
  forall s r s', m s = (r, s') ->
    exists evs, trace (snd s') = trace (snd s) ++ evs
                /\ Forall (fun e => is_refresh e = false) evs.

(** The cache file itself, if there is one. *)
Definition cache_file (s : Fs.fs) : option Fs.file :=
  match s with
  | Fs.Directory _ f => f
  | _ => None
  end.

(** The path the cache loader follows into the loaded document:
    [cache[email]['sso']['expires_at']]. *)
Definition cached_expiry (email : string) (cache : pyval) : result pyval :=
  match getitem cache email with
  | Ok record =>
      match getitem record "sso" with
      | Ok sso => getitem sso "expires_at"
      | other => other
      end
  | other => other
  end.

(** The code verifier a session draws in world [w]. *)
Definition verifier_at (env : Env) (w : World) : bytes :=
  Base64.rstrip "=" (Base64.urlsafe_b64encode (map (entropy env) (seq (drawn w) 32))).

(** The keyword arguments [authorization_url] hands to the library for
    its first URL: the caller's, plus challenge and method. *)
Definition pkce_kwargs (env : Env) (w : World) (kw : OAuth2Session.kw_text)
    : OAuth2Session.kw_text :=
  OAuth2Session.kwt_set "code_challenge_method" "S256"
    (OAuth2Session.kwt_set "code_challenge"
       (string_of_list_ascii
          (Base64.rstrip "=" (Base64.urlsafe_b64encode (sha256 env (verifier_at env w)))))
       kw).

(** The state the first URL carries: the caller's, or a fresh one. *)
Definition state_at (env : Env) (kw : OAuth2Session.kw_text) : string :=
  match OAuth2Session.kwt_get "state" kw with
  | Some s => if Url.nonempty s then s else new_state env
  | None => new_state env
  end.

(** The query parameters of the first URL ([without_hint]) and of the
    second ([with_hint], which adds [login_hint] and repeats the state). *)
Definition unhinted_params (env : Env) (c : Client) (w : World)
    (kw : OAuth2Session.kw_text) : OAuth2Session.kw_text :=
  OAuth2Session.grant_params c (state_at env kw)
    (OAuth2Session.kwt_remove "state" (pkce_kwargs env w kw)).

Definition hinted_params (env : Env) (c : Client) (w : World)
    (kw : OAuth2Session.kw_text) : OAuth2Session.kw_text :=
  OAuth2Session.grant_params c (state_at env kw)
    (OAuth2Session.kwt_remove "state"
       (OAuth2Session.kwt_set "state" (state_at env kw)
          (OAuth2Session.kwt_set "login_hint" (email c) (pkce_kwargs env w kw)))).

Definition unhinted_url (env : Env) (c : Client) (w : World) (url : string)
    (kw : OAuth2Session.kw_text) : result string :=
  OAuth2Session.add_params_to_uri env url (unhinted_params env c w kw).

Definition hinted_url (env : Env) (c : Client) (w : World) (url : string)
    (kw : OAuth2Session.kw_text) : result string :=
  OAuth2Session.add_params_to_uri env url (hinted_params env c w kw).

(** What [populate_token_attributes] makes of [expires_in]. *)
Definition expires_in_outcome (env : Env) (t : gmap string pyval)
    : result unit :=
  match t !! "expires_in" with
  | None => Ok tt
  | Some v =>
      match OAuth2Session.int_of env v with
      | Ok n =>
          match float_of_int n with
          | Ok _ => Ok tt
          | Raise e => Raise e
          | OutOfFuel => OutOfFuel
          end
      | Raise e => Raise e
      | OutOfFuel => OutOfFuel
      end
  end.



(** The base URL [Energy] assigns, as the source spells it. *)
Definition energy_literal : string :=
  "https://owner-api.teslamotors.com/api/1/energy_sites/{site_id}/".

(** Exactly four characters, all decimal digits. *)
Definition four_digits (s : string) : bool :=
  Nat.eqb (String.length s) 4 && Url.forall_chars Url.is_digit s.

Module Examples.

Definition now : Q := 1700000000 # 1.

Definition token_of (access : string) (expires_at : pyval) : pyval :=
  PDict (<["access_token" := PStr access]>
           (<["refresh_token" := PStr "r3fresh"]>
              (<["token_type" := PStr "Bearer"]>
                 (<["expires_at" := expires_at]> ∅)))).

Definition record_of (url : string) (tok : pyval) : pyval :=
  PDict (<["url" := PStr url]> (<["sso" := tok]> ∅)).

Definition cache_of (email : string) (record : pyval) : pyval :=
  PDict (<[email := record]> ∅).

Definition vehicle_list : pyval :=
  PList [PDict (<["id" := PInt 42]> (<["display_name" := PStr "Nikola"]> ∅))].

Definition api_answer (status : Z) (payload : pyval) : Response :=
  {| status_code := status; resp_headers := ∅; body := JsonText payload |}.

(** A stand-in for the digest; no property depends on which function
    it is. *)
Definition digest (bs : bytes) : bytes := take 32 (rev bs ++ replicate 32 "#"%char).

Definition env0 : Env := {|
  time := now;
  entropy := fun n => ascii_of_nat (7 * n + 3);
  sha256 := digest;
  new_state := "st4te";
  sso_get := fun _ =>
    Ok {| status_code := 200; resp_headers := ∅; body := NotJson |};
  sso_fetch_token := fun _ _ =>
    Ok (token_of "fresh" (PFloat (1700003600 # 1)));
  sso_refresh_token := fun _ _ =>
    Ok (token_of "refreshed" (PFloat (1700003600 # 1)));
  browser_open := fun _ => true;
  input := fun _ => "https://auth.tesla.com/void/callback?code=abc&state=st4te";
  requests_get := fun _ _ _ =>
    Ok (api_answer 200 (PDict (<["response" := vehicle_list]> ∅)));
  requests_post := fun _ _ _ _ =>
    Ok (api_answer 200 (PDict (<["response" := PBool true]> ∅)));
  repr := fun _ => "?";
  bracketed_netloc_ok := fun _ => false;
  int_of_str := fun _ => None;
|}.


Definition with_requests_get
    (f : string -> gmap string string -> option kwargs -> result Response)
    (e : Env) : Env := {|
  time := time e; entropy := entropy e; sha256 := sha256 e;
  new_state := new_state e; sso_get := sso_get e;
  sso_fetch_token := sso_fetch_token e;
  sso_refresh_token := sso_refresh_token e;
  browser_open := browser_open e; input := input e;
  requests_get := f; requests_post := requests_post e;
  repr := repr e;
  bracketed_netloc_ok := bracketed_netloc_ok e;
  int_of_str := int_of_str e;
|}.

Definition with_requests_post
    (f : string -> gmap string string -> option kwargs -> option kwargs
         -> result Response)
    (e : Env) : Env := {|
  time := time e; entropy := entropy e; sha256 := sha256 e;
  new_state := new_state e; sso_get := sso_get e;
  sso_fetch_token := sso_fetch_token e;
  sso_refresh_token := sso_refresh_token e;
  browser_open := browser_open e; input := input e;
  requests_get := requests_get e; requests_post := f;
  repr := repr e;
  bracketed_netloc_ok := bracketed_netloc_ok e;
  int_of_str := int_of_str e;
|}.

(** An API that answers every request with HTTP 401 and the given body. *)
Definition env_get (payload : pyval) : Env :=
  with_requests_get (fun _ _ _ => Ok (api_answer 401 payload)) env0.

Definition env_post (payload : pyval) : Env :=
  with_requests_post (fun _ _ _ _ => Ok (api_answer 401 payload)) env0.

Definition email0 : string := "driver@example.com".






(** The environment whose clock reads [clock]. *)
Definition env_at (clock : Q) : Env := {|
  time := clock; entropy := entropy env0; sha256 := sha256 env0;
  new_state := new_state env0; sso_get := sso_get env0;
  sso_fetch_token := sso_fetch_token env0;
  sso_refresh_token := sso_refresh_token env0;
  browser_open := browser_open env0; input := input env0;
  requests_get := requests_get env0; requests_post := requests_post env0;
  repr := repr env0;
  bracketed_netloc_ok := bracketed_netloc_ok env0;
  int_of_str := int_of_str env0;
|}.

(** A session just constructed: [Client('driver@example.com')]. *)
Definition fresh_client : Client :=
  match Client.__init__ email0 Client.default_user_agent
          Client.default_sso_base_url Client.default_app_user_agent true with
  | Ok c => c
  | _ =>
      {| client_id := ""; redirect_uri := None; scope := None; token := PNone;
         access_token := None; auto_refresh_kwargs := ∅; client_base_url := "";
         email := ""; client_headers := ∅; sso_base_url := PNone; verify := true;
         account := None; vehicles := None; code_verifier := None |}
  end.

(** A session holding a token that is valid for another hour. *)
Definition valid_token : pyval := token_of "t0ken" (PInt 1700003600).

Definition authorized_client : Client :=
  with_access_token (Some (PStr "t0ken")) (with_token valid_token fresh_client).

Definition file_holding (v : pyval) : Fs.file :=
  {| Fs.readable := true; Fs.writable := true; Fs.data := JsonText v;
     Fs.mode := 416 |}.

Definition world_with (s : Fs.fs) : World :=
  {| fs := s; drawn := 0; trace := [] |}.

(** A cache file holding the record of [email0] with the given expiry. *)
Definition cached_world (expires_at : pyval) : World :=
  world_with
    (Fs.Directory true
       (Some (file_holding
                (cache_of email0
                   (record_of "https://auth.tesla.com/"
                      (token_of "t0ken" expires_at)))))).

Definition tesla_object : TeslaObject :=
  {| base_url := "https://owner-api.teslamotors.com/api/1/";
     headers := <["Authorization" := "Bearer t0ken"]> ∅ |}.

Definition command0 : Command :=
  Command.__init__ "https://owner-api.teslamotors.com/api/1/vehicles/42/"
    (<["Authorization" := "Bearer t0ken"]> ∅).

End Examples.

(** * Properties *)

(** ** Base64 *)

Section Base64Facts.

Import Base64.














End Base64Facts.

(** ** Running the monad *)

Ltac run_monad :=
  unfold mbind, mret, M_bind, M_ret, bind, ret, raise, lift_result,
    try_except_when, try_except, in_world, Command.in_world, get_client,
    get_world, update_client, modify, emit, set_fs in *;
  cbn [fst snd] in *.

(** ** The expiry predicate *)

Section Expiry.

Variable env : Env.

Lemma Qle_bool_minus_0 (q t : Q) : Qle_bool (q - t) 0 = true <-> (q <= t)%Q.
Proof.
  rewrite Qle_bool_iff. split; intros H.
  - apply Qle_minus_iff in H. apply Qle_minus_iff.
    assert (E : (t + - q == 0 + - (q - t))%Q) by ring.
    rewrite E. exact H.
  - apply Qle_minus_iff. apply Qle_minus_iff in H.
    assert (E : (0 + - (q - t) == t + - q)%Q) by ring.
    rewrite E. exact H.
Qed.

(** An integer of at most 53 significant bits is converted exactly. *)
Lemma float_of_int_exact (z : Z) :
  Z.abs z <= 2 ^ 53 -> float_of_int z = Ok (inject_Z z).
Proof.
  intros Hz. unfold float_of_int.
  destruct (Z.eqb_spec (Z.abs z) 0) as [H0 | H0]; [reflexivity |].
  assert (Hpos : 0 < Z.abs z) by lia.
  destruct (Z.eq_dec (Z.abs z) (2 ^ 53)) as [Heq | Hne].
  - rewrite Heq. cbn -[Z.pow]. rewrite Z.log2_pow2 by lia.
    replace (53 + 1 - 53) with 1 by lia.
    assert (Hstep : (1 <=? 0) = false) by reflexivity. rewrite Hstep.
    replace (2 ^ 53 mod 2 ^ 1) with 0 by reflexivity.
    replace (2 ^ (1 - 1)) with 1 by reflexivity.
    replace (1 <? 0) with false by reflexivity.
    replace (0 =? 1) with false by reflexivity.
    cbn [orb andb].
    replace (2 ^ 53 / 2 ^ 1 * 2 ^ 1) with (2 ^ 53) by reflexivity.
    replace (2 ^ 1024 <=? 2 ^ 53) with false by reflexivity.
    f_equal. f_equal. rewrite <- Heq, Z.mul_comm. apply Z.abs_sgn.
  - assert (Hlog : Z.log2 (Z.abs z) < 53) by (apply Z.log2_lt_pow2; lia).
    destruct (Z.leb_spec (Z.log2 (Z.abs z) + 1 - 53) 0); [reflexivity | lia].
Qed.

(** The numbers float arithmetic takes as they are: a float, a bool,
    and an integer of magnitude at most [2**53]. *)
Lemma as_float_exact (x : pyval) (q : Q) :
  to_num x = Some q ->
  (forall z, x = PInt z -> Z.abs z <= 2 ^ 53) ->
  as_float x = Ok q.
Proof.
  destruct x; cbn; intros Hnum Hsmall; try discriminate Hnum;
    injection Hnum as <-; try reflexivity.
  apply float_of_int_exact. apply Hsmall. reflexivity.
Qed.

(** C8, as amended.  For a session whose token holds as [expires_at] a
    float, a bool, or an integer of magnitude at most [2**53] (every
    epoch timestamp is one), the [expired] property returns (without
    raising and without changing anything) a boolean that is true
    exactly when [expires_at - now <= 0]; in particular it is true at
    the boundary [expires_at = now].  For any integer, the property
    first converts it to a float: it raises [OverflowError] where the
    conversion does, and otherwise compares the converted value. *)
Theorem expired_iff (c : Client) (w : World) (d : gmap string pyval)
    (at_ : pyval) (q : Q) :
  token c = PDict d ->
  d !! "expires_at" = Some at_ ->
  to_num at_ = Some q ->
  ((forall z, at_ = PInt z -> Z.abs z <= 2 ^ 53) ->
   exists b : bool,
     Client.expired env (c, w) = (Ok b, (c, w))
     /\ (b = true <-> (q - time env <= 0)%Q)
     /\ ((q == time env)%Q -> b = true))
  /\ (forall z, at_ = PInt z ->
        match float_of_int z with
        | Ok x =>
            exists b : bool,
              Client.expired env (c, w) = (Ok b, (c, w))
              /\ (b = true <-> (x - time env <= 0)%Q)
        | _ => Client.expired env (c, w) = (Raise OverflowError, (c, w))
        end).
Proof.
  intros Htok Hat Hnum.
  assert (Hrun : Client.expired env (c, w)
                 = match as_float at_ with
                   | Ok x => (Ok (Qle_bool (x - time env) 0), (c, w))
                   | Raise e => (Raise e, (c, w))
                   | OutOfFuel => (OutOfFuel, (c, w))
                   end).
  { unfold Client.expired, Client.expires_at. run_monad.
    rewrite Htok. cbn [get_method]. rewrite Hat.
    unfold sub_float. destruct (as_float at_); reflexivity. }
  split.
  - intros Hsmall. rewrite Hrun, (as_float_exact at_ q Hnum Hsmall).
    exists (Qle_bool (q - time env) 0).
    split; [reflexivity |]. split; [apply Qle_bool_iff |].
    intros Heq. apply Qle_bool_minus_0. rewrite Heq. apply Qle_refl.
  - intros z ->. rewrite Hrun. cbn [as_float].
    unfold float_of_int.
    repeat match goal with
           | |- context [if ?b then _ else _] => destruct b
           end;
      try reflexivity;
      (eexists; split; [reflexivity | apply Qle_bool_iff]).
Qed.

End Expiry.

(** ** The request wrappers *)

Section Wrappers.

Variable env : Env.

Lemma get_outcome (obj : TeslaObject) (endpoint : string)
    (params : option kwargs) (w : World) :
  get env obj endpoint params w
  = match Url.urljoin env (base_url obj) endpoint with
    | Ok url =>
        (envelope (requests_get env url (headers obj) params),
         {| fs := fs w; drawn := drawn w;
            trace := trace w ++ [EvRequest "GET" url (headers obj) params None] |})
    | Raise e => (Raise e, w)
    | OutOfFuel => (OutOfFuel, w)
    end.
Proof.
  unfold get, envelope. run_monad.
  destruct (Url.urljoin env _ _) as [url | e |]; [| reflexivity | reflexivity].
  destruct (requests_get env _ _ _) as [response | e |]; cbn.
  - destruct (json response) as [payload | e |]; cbn.
    + destruct (getitem payload "response") as [v | e |]; cbn;
        try destruct (is_HTTPError e); reflexivity.
    + destruct (is_HTTPError e); reflexivity.
    + reflexivity.
  - destruct (is_HTTPError e); reflexivity.
  - reflexivity.
Qed.

Lemma post_outcome (obj : TeslaObject) (endpoint : string)
    (params data : option kwargs) (w : World) :
  post env obj endpoint params data w
  = match Url.urljoin env (base_url obj) endpoint with
    | Ok url =>
        (envelope (requests_post env url (headers obj) params data),
         {| fs := fs w; drawn := drawn w;
            trace := trace w ++ [EvRequest "POST" url (headers obj) params data] |})
    | Raise e => (Raise e, w)
    | OutOfFuel => (OutOfFuel, w)
    end.
Proof.
  unfold post, envelope. run_monad.
  destruct (Url.urljoin env _ _) as [url | e |]; [| reflexivity | reflexivity].
  destruct (requests_post env _ _ _ _) as [response | e |]; cbn.
  - destruct (json response) as [payload | e |]; cbn.
    + destruct (getitem payload "response") as [v | e |]; cbn;
        try destruct (is_HTTPError e); reflexivity.
    + destruct (is_HTTPError e); reflexivity.
    + reflexivity.
  - destruct (is_HTTPError e); reflexivity.
  - reflexivity.
Qed.

(** The status code plays no part in what a wrapper returns. *)
Lemma envelope_ignores_status (s1 s2 : Z) (h1 h2 : gmap string string)
    (b : text) :
  envelope (Ok {| status_code := s1; resp_headers := h1; body := b |})
  = envelope (Ok {| status_code := s2; resp_headers := h2; body := b |}).
Proof. reflexivity. Qed.

End Wrappers.

Section WrappersAt401.

Import Examples.

(** C4.  The wrappers at an HTTP 401 answer.  When the body of the 401
    carries a [response] member, [get] and [post] return it as an
    ordinary result; when it carries an error message instead, the
    caller sees a bare [KeyError], which holds neither the status nor
    the body.  In each case exactly one request was sent. *)
Theorem wrappers_do_not_surface_401 :
  let w := world_with (Fs.NoDirectory true) in
  let with_member := PDict (<["response" := PStr "denied"]> ∅) in
  let with_error := PDict (<["error" := PStr "invalid bearer token"]> ∅) in
  (exists w',
      get (env_get with_member) tesla_object "vehicles" None w
      = (Ok (PStr "denied"), w')
      /\ length (filter (fun e => is_request e = true) (trace w')) = 1%nat)
  /\ (exists w',
      post (env_post with_member) tesla_object "command/honk_horn" None None w
      = (Ok (PStr "denied"), w')
      /\ length (filter (fun e => is_request e = true) (trace w')) = 1%nat)
  /\ (exists w',
      get (env_get with_error) tesla_object "vehicles" None w
      = (Raise KeyError, w')
      /\ length (filter (fun e => is_request e = true) (trace w')) = 1%nat).
Proof.
  cbv zeta. repeat split.
  - eexists. rewrite get_outcome. split; reflexivity.
  - eexists. rewrite post_outcome. split; reflexivity.
  - eexists. rewrite get_outcome. split; reflexivity.
Qed.

End WrappersAt401.

(** ** The energy endpoints *)

Section EnergySite.

Variable env : Env.

Lemma energy_urls :
  Forall (fun endpoint =>
            Url.urljoin env energy_literal endpoint
            = Ok (energy_literal +:+ endpoint)
            /\ OAuth2Session.is_substring "{site_id}"
                 (energy_literal +:+ endpoint) = true)
         Energy.endpoints.
Proof. repeat constructor. Qed.

(** Every method of [Energy] that goes through [get] passes one of the
    listed endpoints. *)
Lemma energy_methods_endpoints (self : TeslaObject) :
  Forall (fun m : M World pyval =>
            exists endpoint params,
              In endpoint Energy.endpoints /\ m = get env self endpoint params)
    [Energy.get_backup_time_remaining env self;
     Energy.get_live_status env self;
     Energy.get_programs env self;
     Energy.get_site_info env self;
     Energy.get_site_status env self;
     Energy.get_tariff_rate env self;
     Energy.history env self (PStr "energy") (PStr "day");
     Energy.calendar_history env self (PStr "energy")
       (PStr "2023-01-21T00:00:00-00:00") (PStr "15m") (PStr "day")].
Proof.
  repeat constructor; eexists _, _; (split; [| reflexivity]); cbn; tauto.
Qed.

(** C9.  Whatever [site_id] is passed, a constructed [Energy] object has
    the literal base URL with the placeholder [{site_id}] unexpanded;
    constructing it for any other site gives the very same object; and
    each request an energy method sends through [get] goes to that
    literal followed by the endpoint, a URL containing the text
    [{site_id}]. *)
Theorem energy_base_url_keeps_placeholder (client : Client)
    (site_id : string) (self : TeslaObject) :
  Energy.__init__ env client site_id = Ok self ->
  base_url self
  = "https://owner-api.teslamotors.com/api/1/energy_sites/{site_id}/"
  /\ (forall other_site : string, Energy.__init__ env client other_site = Ok self)
  /\ (forall endpoint params w,
        In endpoint Energy.endpoints ->
        exists r w',
          get env self endpoint params w = (r, w')
          /\ trace w'
             = trace w ++ [EvRequest "GET" (base_url self +:+ endpoint)
                             (headers self) params None]
          /\ OAuth2Session.is_substring "{site_id}" (base_url self +:+ endpoint)
             = true).
Proof.
  intros Hinit.
  assert (Hbase : base_url self = energy_literal).
  { unfold Energy.__init__ in Hinit.
    destruct (bearer_headers env client); inversion Hinit; reflexivity. }
  split; [exact Hbase | split].
  - intros other. exact Hinit.
  - intros endpoint params w Hin.
    pose proof energy_urls as Hall.
    rewrite Forall_forall in Hall.
    destruct (Hall endpoint) as [Hjoin Hsub].
    { apply list_elem_of_In. exact Hin. }
    eexists _, _. rewrite get_outcome, Hbase, Hjoin. split; [reflexivity |].
    split; [reflexivity | exact Hsub].
Qed.

End EnergySite.

(** ** The default valet PIN *)

Section ValetPin.

Variable env : Env.

Lemma randint_range (a b : Z) (raw : N) :
  a <= b -> a <= Command.randint a b raw <= b.
Proof.
  intros Hab. unfold Command.randint.
  pose proof (Z.mod_pos_bound (Z.of_N raw) (b - a + 1)). lia.
Qed.

Lemma pins_are_four_digits (n : Z) :
  0 <= n <= 1000 -> four_digits (zfill 4 (str_of_Z n)) = true.
Proof.
  intros Hn.
  assert (Hall : forallb (fun k => four_digits (zfill 4 (str_of_Z (Z.of_nat k))))
                   (seq 0 1001) = true) by (vm_compute; reflexivity).
  rewrite forallb_forall in Hall.
  specialize (Hall (Z.to_nat n)).
  rewrite Z2Nat.id in Hall by lia.
  apply Hall. apply in_seq. lia.
Qed.

(** C10.  The default PIN of [set_valet_mode] is fixed when the class
    body runs.  Two calls that omit [valet_pin] -- on any objects, in
    any worlds, with any [on] -- store and send one and the same
    password, the 4-digit zero-padded text of a number between 0 and
    1000 inclusive. *)
Theorem default_valet_pin_is_sampled_once (raw : N) (on1 on2 : bool)
    (self1 self2 : Command) (w1 w2 : World) :
  let cls := Command.class_body raw in
  exists (n : Z) (r1 r2 : result pyval) (s1 s2 : Command * World),
    0 <= n <= 1000
    /\ four_digits (zfill 4 (str_of_Z n)) = true
    /\ Command.set_valet_mode env cls on1 None (self1, w1) = (r1, s1)
    /\ Command.set_valet_mode env cls on2 None (self2, w2) = (r2, s2)
    /\ valet_pin (fst s1) = Some (PStr (zfill 4 (str_of_Z n)))
    /\ valet_pin (fst s2) = Some (PStr (zfill 4 (str_of_Z n)))
    /\ trace (snd s1)
       = trace w1
         ++ match Url.urljoin env (command_base_url self1)
                    "command/set_valet_mode" with
            | Ok url =>
                [EvRequest "POST" url (command_headers self1)
                   (Some [("password", PStr (zfill 4 (str_of_Z n)))]) None]
            | _ => []
            end
    /\ trace (snd s2)
       = trace w2
         ++ match Url.urljoin env (command_base_url self2)
                    "command/set_valet_mode" with
            | Ok url =>
                [EvRequest "POST" url (command_headers self2)
                   (Some [("password", PStr (zfill 4 (str_of_Z n)))]) None]
            | _ => []
            end.
Proof.
  intros cls.
  pose proof (randint_range 0 1000 raw ltac:(lia)) as Hn.
  exists (Command.randint 0 1000 raw).
  unfold Command.set_valet_mode. run_monad.
  rewrite !post_outcome. cbn [format_value Command.class_body
    Command.set_valet_mode_default_valet_pin cls Command.as_object base_url
    headers command_base_url command_headers].
  pose proof (pins_are_four_digits _ Hn) as Hpin.
  destruct (Url.urljoin env (command_base_url self1) _);
    destruct (Url.urljoin env (command_base_url self2) _);
    eexists _, _, _, _;
    (split; [exact Hn |]); (split; [exact Hpin |]);
    (split; [reflexivity |]); (split; [reflexivity |]);
    cbn [fst snd valet_pin trace]; rewrite ?app_nil_r;
    repeat split; reflexivity.
Qed.

End ValetPin.

(** ** The token cache *)

Section CacheLoader.

Variable env : Env.

Ltac settled := cbn; eexists _, _; repeat split; discriminate.

(** The loader leaves the session and the trace alone, never touches
    the cache file itself, and never runs out of fuel. *)
Lemma load_cache_frame (c : Client) (w : World) :
  exists (r : result pyval) (w' : World),
    Client._load_cache env (c, w) = (r, (c, w'))
    /\ cache_file (fs w') = cache_file (fs w)
    /\ trace w' = trace w
    /\ drawn w' = drawn w
    /\ r <> OutOfFuel.
Proof.
  unfold Client._load_cache, Client.set_expired. run_monad.
  destruct w as [s n tr]. cbn [fs trace drawn].
  destruct s as [| [] | dw [f |]]; try settled.
  cbn. destruct (Fs.readable f); [| settled].
  destruct (Fs.data f) as [| cache]; [settled |].
  cbn. destruct cache as [| | | | | | d]; try settled.
  cbn. destruct (d !! email c) as [record |]; [| settled].
  destruct record as [| | | | | | r]; try settled.
  cbn. destruct (r !! "sso") as [sso |]; [| settled].
  destruct sso as [| | | | | | t]; try settled.
  cbn. destruct (t !! "expires_at") as [at_ |]; [| settled].
  destruct at_ as [| | | | s | |]; try settled.
  cbn. destruct (String.leb s (strftime_s env)); settled.
Qed.

(** When the directory above the cache directory exists, and is
    writable if the cache directory is yet to be made, the loader
    returns a value and the cache directory exists afterwards. *)
Lemma load_cache_soft (c : Client) (w : World) :
  fs w <> Fs.NoAncestor ->
  fs w <> Fs.NoDirectory false ->
  exists (v : pyval) (w' : World),
    Client._load_cache env (c, w) = (Ok v, (c, w'))
    /\ Fs.parent_exists (fs w') = true.
Proof.
  intros Hanc Hperm.
  unfold Client._load_cache, Client.set_expired. run_monad.
  destruct w as [s n tr]. cbn [fs trace drawn] in *.
  destruct s as [| [] | dw [f |]]; try congruence;
    try (cbn; eexists _, _; split; reflexivity).
  cbn. destruct (Fs.readable f); [| cbn; eexists _, _; split; reflexivity].
  destruct (Fs.data f) as [| cache]; [cbn; eexists _, _; split; reflexivity |].
  cbn. destruct cache as [| | | | | | d];
    try (cbn; eexists _, _; split; reflexivity).
  cbn. destruct (d !! email c) as [record |];
    [| cbn; eexists _, _; split; reflexivity].
  destruct record as [| | | | | | r];
    try (cbn; eexists _, _; split; reflexivity).
  cbn. destruct (r !! "sso") as [sso |];
    [| cbn; eexists _, _; split; reflexivity].
  destruct sso as [| | | | | | t];
    try (cbn; eexists _, _; split; reflexivity).
  cbn. destruct (t !! "expires_at") as [at_ |];
    [| cbn; eexists _, _; split; reflexivity].
  destruct at_ as [| | | | s | |];
    try (cbn; eexists _, _; split; reflexivity).
  cbn. destruct (String.leb s (strftime_s env));
    cbn; eexists _, _; split; reflexivity.
Qed.

(** A missing or unreadable file, a file that is not JSON, and a
    document without the path [email / sso / expires_at] all load as
    the empty cache. *)
Lemma load_cache_unusable (c : Client) (w : World) :
  fs w <> Fs.NoAncestor ->
  fs w <> Fs.NoDirectory false ->
  (forall v, Fs.open_read (fs w) = Ok (JsonText v) ->
             exists e, cached_expiry (email c) v = Raise e) ->
  exists w',
    Client._load_cache env (c, w) = (Ok (PDict ∅), (c, w'))
    /\ Fs.parent_exists (fs w') = true.
Proof.
  intros Hanc Hperm Hbad.
  unfold Client._load_cache, Client.set_expired. run_monad.
  destruct w as [s n tr]. cbn [fs trace drawn] in *.
  destruct s as [| [] | dw [f |]]; try congruence;
    try (cbn; eexists; split; reflexivity).
  cbn in *. destruct (Fs.readable f); [| cbn; eexists; split; reflexivity].
  destruct (Fs.data f) as [| cache]; [cbn; eexists; split; reflexivity |].
  destruct (Hbad cache eq_refl) as [e He]. unfold cached_expiry in He.
  cbn. destruct (getitem cache (email c)) as [record | e1 |]; cbn;
    [| eexists; split; reflexivity | discriminate].
  destruct (getitem record "sso") as [sso | e2 |]; cbn;
    [| eexists; split; reflexivity | discriminate].
  rewrite He. cbn. eexists; split; reflexivity.
Qed.

(** A record whose [expires_at] is a number, as the SSO service issues
    it, never survives the loader: comparing it with the formatted
    clock raises, and the handler answers with the empty cache. *)
Lemma load_cache_numeric (c : Client) (w : World) (dw : bool) (f : Fs.file)
    (d r t : gmap string pyval) (at_ : pyval) (q : Q) :
  fs w = Fs.Directory dw (Some f) ->
  Fs.readable f = true ->
  Fs.data f = JsonText (PDict d) ->
  d !! email c = Some (PDict r) ->
  r !! "sso" = Some (PDict t) ->
  t !! "expires_at" = Some at_ ->
  to_num at_ = Some q ->
  Client._load_cache env (c, w) = (Ok (PDict ∅), (c, w)).
Proof.
  intros Hfs Hr Hd He Hs Ha Hq.
  unfold Client._load_cache, Client.set_expired. run_monad.
  destruct w as [s n tr]. cbn [fs trace drawn] in *. subst s.
  cbn. rewrite Hr, Hd. cbn. rewrite He. cbn. rewrite Hs. cbn. rewrite Ha.
  destruct at_; cbn in Hq; try discriminate; reflexivity.
Qed.

(** Saving into an existing, writable place stores the document with
    mode 0o640. *)
Lemma dump_cache_writes (c : Client) (w : World) (v : pyval) :
  (exists dw f, fs w = Fs.Directory dw (Some f) /\ Fs.writable f = true)
  \/ fs w = Fs.Directory true None ->
  exists w',
    Client._dump_cache v (c, w) = (Ok tt, (c, w'))
    /\ Fs.open_read (fs w') = Ok (JsonText v)
    /\ (exists f', cache_file (fs w') = Some f' /\ Fs.mode f' = 416)
    /\ trace w' = trace w.
Proof.
  intros Hfs. unfold Client._dump_cache. run_monad.
  destruct w as [s n tr]. cbn [fs trace drawn] in *.
  destruct Hfs as [(dw & f & -> & Hw) | ->]; cbn.
  - rewrite Hw. cbn. eexists. repeat split. eexists. split; reflexivity.
  - eexists. repeat split. eexists. split; reflexivity.
Qed.

(** Self-healing: after a load that found no cache directory, under a
    parent the process can write to, a save goes through. *)
Lemma load_then_dump_heals (c : Client) (w : World) (v : pyval) :
  fs w = Fs.NoDirectory true ->
  exists w1 w2,
    Client._load_cache env (c, w) = (Ok (PDict ∅), (c, w1))
    /\ Client._dump_cache v (c, w1) = (Ok tt, (c, w2))
    /\ Fs.open_read (fs w2) = Ok (JsonText v).
Proof.
  intros Hfs.
  destruct w as [s n tr]. cbn [fs] in Hfs. subst s.
  eexists _, _. split; [reflexivity |]. split; reflexivity.
Qed.

End CacheLoader.

Section CacheAtInputs.

Import Examples.

(** C1.  Saving the record of a session whose token is valid for
    another hour and loading the cache again: the save goes through
    (the file holds the saved document), yet the loader returns the
    empty dictionary, in which the record just saved is not found. *)
Theorem dump_then_load_loses_the_record :
  let saved := cache_of email0 (record_of "https://auth.tesla.com" valid_token) in
  let w := world_with (Fs.Directory true None) in
  exists w1 w2,
    Client._dump_cache saved (authorized_client, w) = (Ok tt, (authorized_client, w1))
    /\ Fs.open_read (fs w1) = Ok (JsonText saved)
    /\ Client._load_cache env0 (authorized_client, w1)
       = (Ok (PDict ∅), (authorized_client, w2))
    /\ getitem saved email0 = Ok (record_of "https://auth.tesla.com" valid_token)
    /\ getitem (PDict ∅) email0 = Raise KeyError.
Proof.
  cbv zeta. eexists _, _.
  split; [reflexivity |]. split; [reflexivity |].
  split; [reflexivity |]. split; reflexivity.
Qed.

(** C6.  With the default layout [~/.cache/tesla/cache.json] and no
    [~/.cache] directory, the loader does not return: the [mkdir] of
    its exception handler raises [FileNotFoundError], which reaches the
    caller, and no directory has been created. *)
Theorem load_cache_raises_without_ancestor :
  let w := world_with Fs.NoAncestor in
  Client._load_cache env0 (fresh_client, w)
  = (Raise FileNotFoundError, (fresh_client, w)).
Proof. reflexivity. Qed.

End CacheAtInputs.

(** ** Library calls that cannot run out of fuel, and the token setter *)

Section Library.

Variable env : Env.

Lemma urlsplit_returns (url sch : string) :
  Url.urlsplit env url sch <> OutOfFuel.
Proof.
  unfold Url.urlsplit, Url.check_netloc.
  repeat match goal with
         | |- context [if ?b then _ else _] => destruct b
         end; discriminate.
Qed.

Lemma urlparse_returns (url sch : string) :
  Url.urlparse env url sch <> OutOfFuel.
Proof.
  unfold Url.urlparse. pose proof (urlsplit_returns url sch).
  destruct (Url.urlsplit env url sch); [discriminate | discriminate | congruence].
Qed.

Lemma urljoin_returns (base url : string) :
  Url.urljoin env base url <> OutOfFuel.
Proof.
  unfold Url.urljoin.
  destruct (negb (Url.nonempty base)); [discriminate |].
  destruct (negb (Url.nonempty url)); [discriminate |].
  pose proof (urlparse_returns base "") as Hb.
  destruct (Url.urlparse env base "") as [b | e |]; [| discriminate | congruence].
  pose proof (urlparse_returns url (Url.p_scheme b)) as Hu.
  destruct (Url.urlparse env url (Url.p_scheme b)) as [u | e |];
    [| discriminate | congruence].
  repeat match goal with
         | |- context [if ?b then _ else _] => destruct b
         end; discriminate.
Qed.




Lemma urljoin_base_returns (base : pyval) (url : string) :
  Client.urljoin_base env base url <> OutOfFuel.
Proof.
  unfold Client.urljoin_base.
  destruct base; try (destruct (truthy _); discriminate).
  apply urljoin_returns.
Qed.

Lemma contains_dict (t : gmap string pyval) (k : string) :
  OAuth2Session.contains (PDict t) k
  = Ok (match t !! k with Some _ => true | None => false end).
Proof.
  cbn. destruct (t !! k) as [v |].
  - rewrite bool_decide_eq_true_2 by (eexists; reflexivity). reflexivity.
  - rewrite bool_decide_eq_false_2; [reflexivity |]. intros [v H]. discriminate H.
Qed.

Lemma copied_dict (t : gmap string pyval) (k : string) :
  OAuth2Session.copied (PDict t) k = Ok (t !! k).
Proof.
  unfold OAuth2Session.copied. rewrite contains_dict. cbn [get_method].
  destruct (t !! k); reflexivity.
Qed.

(** Setting a dictionary as token: the session holds it, with its
    [access_token] copied out if it has one; the call raises exactly
    when the conversion of [expires_in] does. *)
Lemma set_token_dict (t : gmap string pyval) (c : Client) (w : World) :
  OAuth2Session.set_token env (PDict t) (c, w)
  = (expires_in_outcome env t,
     (match t !! "access_token" with
      | Some a => with_access_token (Some a) (with_token (PDict t) c)
      | None => with_token (PDict t) c
      end, w)).
Proof.
  unfold OAuth2Session.set_token, expires_in_outcome. run_monad.
  rewrite !copied_dict, contains_dict.
  destruct (t !! "access_token"); cbn [fst snd];
    (destruct (t !! "expires_in") as [v |]; [| reflexivity]);
    (destruct (OAuth2Session.int_of env v) as [n | e |]; [| reflexivity | reflexivity]);
    destruct (float_of_int n); reflexivity.
Qed.

End Library.

(** ** Logging out *)

Section Logout.

Variable env : Env.

(** With the token emptied while the session still counts as
    authorized, [_token_updater] cannot evaluate [self.expired] and
    raises before any branch that touches the cache. *)
Lemma token_updater_raises_on_empty_token (fetch : M CW pyval) (c : Client)
    (w : World) :
  OAuth2Session.authorized c = true ->
  token c = PDict ∅ ->
  exists (e : exn) (w' : World),
    Client._token_updater_with fetch env (c, w) = (Raise e, (c, w'))
    /\ cache_file (fs w') = cache_file (fs w)
    /\ trace w' = trace w.
Proof.
  intros Hauth Htok.
  destruct (load_cache_frame env c w) as (r & w' & Hload & Hfile & Htr & _ & Hfuel).
  unfold Client._token_updater_with. run_monad. rewrite Hload.
  destruct r as [cache | e |]; [| eexists _, _; repeat split; eassumption
                                | congruence].
  destruct cache as [| | | | | | d];
    try (eexists _, _; repeat split; eassumption).
  cbn [fst snd]. rewrite Hauth.
  unfold Client.expired, Client.expires_at. run_monad. rewrite Htok.
  cbn. eexists _, _; repeat split; eassumption.
Qed.

(** Every [logout()] of an authorized session ends in an exception;
    the cache file is exactly what it was. *)
Lemma logout_raises (fuel : nat) (sign_out : bool) (c : Client) (w : World) :
  OAuth2Session.authorized c = true ->
  exists (e : exn) (s' : CW),
    Client.logout fuel env sign_out (c, w) = (Raise e, s')
    /\ cache_file (fs (snd s')) = cache_file (fs w).
Proof.
  intros Hauth. unfold Client.logout.
  unfold mbind at 1, M_bind at 1, bind at 1. cbn [get_client fst snd].
  rewrite Hauth. cbn [negb].
  unfold mbind at 1, M_bind at 1, bind at 1, lift_result at 1.
  pose proof (urljoin_base_returns env (sso_base_url c) Client.logout_path)
    as Hfuel.
  destruct (Client.urljoin_base env (sso_base_url c) Client.logout_path)
    as [url | e |]; [| eexists _, _; split; reflexivity | congruence].
  set (w1 := if sign_out
             then (if browser_open env url
                   then {| fs := fs w; drawn := drawn w;
                           trace := trace w ++ [EvBrowserOpen url] |}
                   else {| fs := fs w; drawn := drawn w;
                           trace := (trace w ++ [EvBrowserOpen url])
                                    ++ [EvPrint ("Open this URL to sign out: " +:+ url)] |})
             else w).
  assert (Hfs1 : fs w1 = fs w).
  { unfold w1. destruct sign_out; [destruct (browser_open env url) |]; reflexivity. }
  destruct (token_updater_raises_on_empty_token
              (Client.fetch_token fuel env Client.default_token_path [])
              (with_token (PDict ∅) c) w1 Hauth eq_refl)
    as (e & w2 & Hupd & Hfile & _).
  exists e, (with_token (PDict ∅) c, w2).
  split; [| cbn [snd]; rewrite Hfile, Hfs1; reflexivity].
  assert (Hshown : (if sign_out
                    then in_world (emit (EvBrowserOpen url));;
                         (if browser_open env url then ret tt
                          else in_world
                                 (emit (EvPrint ("Open this URL to sign out: "
                                                 +:+ url))))
                    else ret tt) (c, w) = (Ok tt, (c, w1))).
  { unfold w1. destruct sign_out; [| reflexivity].
    run_monad. destruct (browser_open env url); reflexivity. }
  unfold mbind at 1, M_bind at 1, bind at 1. rewrite Hshown.
  unfold mbind at 1, M_bind at 1, bind at 1.
  rewrite set_token_dict. unfold expires_in_outcome. rewrite !lookup_empty.
  unfold mbind at 1, M_bind at 1, bind at 1.
  unfold Client._token_updater. rewrite Hupd. reflexivity.
Qed.

End Logout.

Section LogoutAtInputs.

Import Examples.

(** C3.  [logout()] of a session that holds a valid token, its record
    being in the cache: the call raises [TypeError] (from
    [self.expired], evaluated on the emptied token).  The in-memory
    token has been emptied, but the cache file still holds the full
    token instead of a tombstone, the session still counts as
    authorized, and no URL is returned. *)
Theorem logout_raises_before_persisting (fuel : nat) :
  let w := cached_world (PInt 1700003600) in
  exists c',
    Client.logout fuel env0 false (authorized_client, w) = (Raise TypeError, (c', w))
    /\ token c' = PDict ∅
    /\ OAuth2Session.authorized c' = true
    /\ Fs.open_read (fs w)
       = Ok (JsonText (cache_of email0
                         (record_of "https://auth.tesla.com/"
                            (token_of "t0ken" (PInt 1700003600))))).
Proof.
  cbv zeta. eexists. split; [| split; [| split]].
  - unfold Client.logout, Client._token_updater. reflexivity.
  - reflexivity.
  - reflexivity.
  - reflexivity.
Qed.

End LogoutAtInputs.

(** ** Building the authorization URL *)

Section KeywordArguments.

Import OAuth2Session.

Lemma kwt_get_set_eq (k v : string) (kw : kw_text) :
  kwt_get k (kwt_set k v kw) = Some v.
Proof.
  induction kw as [| [k' v'] rest IH]; cbn.
  - rewrite String.eqb_refl. reflexivity.
  - destruct (String.eqb k k') eqn:E; cbn.
    + rewrite String.eqb_refl. reflexivity.
    + rewrite E. exact IH.
Qed.

Lemma kwt_get_set_ne (k k' v : string) (kw : kw_text) :
  k <> k' -> kwt_get k (kwt_set k' v kw) = kwt_get k kw.
Proof.
  intros Hne. apply String.eqb_neq in Hne.
  induction kw as [| [k2 v2] rest IH]; cbn.
  - rewrite Hne. reflexivity.
  - destruct (String.eqb k' k2) eqn:E; cbn.
    + apply String.eqb_eq in E. subst k2. rewrite Hne. reflexivity.
    + destruct (String.eqb k k2); [reflexivity | exact IH].
Qed.





End KeywordArguments.

Section AuthorizationUrl.

Import OAuth2Session.

Variable env : Env.

Lemma state_at_again (kw : kw_text) :
  (if Url.nonempty (state_at env kw) then state_at env kw else new_state env)
  = state_at env kw.
Proof.
  unfold state_at.
  destruct (kwt_get "state" kw) as [s |].
  - destruct (Url.nonempty s) eqn:E; [rewrite E; reflexivity |].
    destruct (Url.nonempty (new_state env)); reflexivity.
  - destruct (Url.nonempty (new_state env)); reflexivity.
Qed.

(** The parameters play no part in whether [add_params_to_uri]
    accepts a URI. *)
Lemma add_params_to_uri_accepts (uri built : string) (params others : kw_text) :
  add_params_to_uri env uri params = Ok built ->
  exists built', add_params_to_uri env uri others = Ok built'.
Proof.
  unfold add_params_to_uri.
  destruct (Url.urlparse env uri "") as [r | e |]; [| discriminate | discriminate].
  intros _. eexists. reflexivity.
Qed.

Lemma add_params_to_uri_refuses (uri : string) (params others : kw_text) (e : exn) :
  add_params_to_uri env uri params = Raise e ->
  add_params_to_uri env uri others = Raise e.
Proof.
  unfold add_params_to_uri.
  destruct (Url.urlparse env uri "") as [r | e' |]; [discriminate | | discriminate].
  intros H. exact H.
Qed.

Lemma add_params_to_uri_returns (uri : string) (params : kw_text) :
  add_params_to_uri env uri params <> OutOfFuel.
Proof.
  unfold add_params_to_uri. pose proof (urlparse_returns env uri "") as H.
  destruct (Url.urlparse env uri ""); [discriminate | discriminate | congruence].
Qed.

(** The first steps of [authorization_url] for a session that is not
    authorized and whose SSO base URL is a string giving an https
    endpoint: the verifier is drawn and stored, and the un-hinted URL
    is built. *)
Lemma authorization_url_start (c : Client) (w : World) (path base url : string)
    (kw : kw_text) :
  authorized c = false ->
  sso_base_url c = PStr base ->
  Url.urljoin env base path = Ok url ->
  is_secure_transport url = true ->
  let c1 := with_code_verifier (Some (verifier_at env w)) c in
  let w0 := {| fs := fs w; drawn := (drawn w + 32)%nat; trace := trace w |} in
  Client.authorization_url env path kw (c, w)
  = match unhinted_url env c w url kw, hinted_url env c w url kw with
    | Ok unhinted, Ok probe =>
        let w1 := {| fs := fs w; drawn := (drawn w + 32)%nat;
                     trace := trace w ++ [EvSessionGet probe] |} in
        match sso_get env probe with
        | Ok response =>
            if is_redirect response then
              match resp_headers response !! "location" with
              | Some location =>
                  match Url.urljoin env location "/" with
                  | Ok origin =>
                      (Ok (Some (if ok response then location else unhinted)),
                       (with_sso_base_url (PStr origin) c1, w1))
                  | Raise e => (Raise e, (c1, w1))
                  | OutOfFuel => (OutOfFuel, (c1, w1))
                  end
              | None => (Raise KeyError, (c1, w1))
              end
            else
              (Ok (Some (if ok response then probe else unhinted)), (c1, w1))
        | Raise e => (Raise e, (c1, w1))
        | OutOfFuel => (OutOfFuel, (c1, w1))
        end
    | Ok _, Raise e | Raise e, _ => (Raise e, (c1, w0))
    | Ok _, OutOfFuel | OutOfFuel, _ => (OutOfFuel, (c1, w0))
    end.
Proof.
  intros Hauth Hbase Hurl Hsec c1 w0.
  unfold Client.authorization_url, Client._new_code_verifier, urandom,
    OAuth2Session.authorization_url, OAuth2Session.get.
  run_monad. rewrite Hauth, Hbase. cbn [Client.urljoin_base].
  rewrite Hurl. subst c1 w0. cbn [fst snd]. rewrite Hsec. cbn [fst snd].
  rewrite !(kwt_get_set_ne "state") by discriminate.
  fold (state_at env kw).
  unfold hinted_url, unhinted_url, hinted_params, unhinted_params,
    pkce_kwargs, verifier_at, modify.
  cbn [fst snd].
  destruct (add_params_to_uri env url _) as [unhinted | e |];
    [| reflexivity | reflexivity].
  cbn [fst snd].
  rewrite !kwt_get_set_eq, state_at_again.
  destruct (add_params_to_uri env url _) as [probe | e |];
    [| reflexivity | reflexivity].
  cbn [fst snd].
  destruct (sso_get env _) as [response | e |]; [| reflexivity | reflexivity].
  destruct (is_redirect response); [| reflexivity].
  destruct (resp_headers response !! "location") as [location |]; [| reflexivity].
  cbn [fst snd].
  destruct (Url.urljoin env location "/"); reflexivity.
Qed.

(** The same once both URLs are known to be built. *)
Lemma authorization_url_run (c : Client) (w : World) (path base url : string)
    (kw : kw_text) (unhinted probe : string) :
  authorized c = false ->
  sso_base_url c = PStr base ->
  Url.urljoin env base path = Ok url ->
  is_secure_transport url = true ->
  unhinted_url env c w url kw = Ok unhinted ->
  hinted_url env c w url kw = Ok probe ->
  let c1 := with_code_verifier (Some (verifier_at env w)) c in
  let w1 := {| fs := fs w; drawn := (drawn w + 32)%nat;
               trace := trace w ++ [EvSessionGet probe] |} in
  Client.authorization_url env path kw (c, w)
  = match sso_get env probe with
    | Ok response =>
        if is_redirect response then
          match resp_headers response !! "location" with
          | Some location =>
              match Url.urljoin env location "/" with
              | Ok origin =>
                  (Ok (Some (if ok response then location else unhinted)),
                   (with_sso_base_url (PStr origin) c1, w1))
              | Raise e => (Raise e, (c1, w1))
              | OutOfFuel => (OutOfFuel, (c1, w1))
              end
          | None => (Raise KeyError, (c1, w1))
          end
        else
          (Ok (Some (if ok response then probe else unhinted)), (c1, w1))
    | Raise e => (Raise e, (c1, w1))
    | OutOfFuel => (OutOfFuel, (c1, w1))
    end.
Proof.
  intros Hauth Hbase Hurl Hsec Hunhinted Hprobe c1 w1.
  rewrite (authorization_url_start c w path base url kw Hauth Hbase Hurl Hsec).
  cbv zeta. rewrite Hunhinted, Hprobe. reflexivity.
Qed.

(** And when the URL the endpoint resolves to is one the library
    cannot parse, the call raises before anything is sent. *)
Lemma authorization_url_refused (c : Client) (w : World) (path base url : string)
    (kw : kw_text) (e : exn) :
  authorized c = false ->
  sso_base_url c = PStr base ->
  Url.urljoin env base path = Ok url ->
  is_secure_transport url = true ->
  hinted_url env c w url kw = Raise e ->
  Client.authorization_url env path kw (c, w)
  = (Raise e,
     (with_code_verifier (Some (verifier_at env w)) c,
      {| fs := fs w; drawn := (drawn w + 32)%nat; trace := trace w |})).
Proof.
  intros Hauth Hbase Hurl Hsec Hprobe.
  rewrite (authorization_url_start c w path base url kw Hauth Hbase Hurl Hsec).
  cbv zeta. rewrite Hprobe.
  unfold hinted_url in Hprobe. unfold unhinted_url.
  rewrite (add_params_to_uri_refuses url _ (unhinted_params env c w kw) e Hprobe).
  reflexivity.
Qed.

End AuthorizationUrl.

Section Origin.

Variable env : Env.


Lemma append_nil (t : string) : "" +:+ t = t.
Proof. reflexivity. Qed.









End Origin.

Section Pkce.

Import OAuth2Session.

Variable env : Env.







End Pkce.

Section RegionProbe.

Import OAuth2Session.

Variable env : Env.




End RegionProbe.

Section RegionProbeAtInputs.

Import OAuth2Session Examples.



End RegionProbeAtInputs.

(** ** Logging in *)

Section Login.

Import OAuth2Session.

Variable env : Env.

Ltac same_trace :=
  let H := fresh in
  intros ? ? ? H; inversion H; subst; exists []; split;
  [cbn; rewrite app_nil_r; reflexivity | constructor].

Lemma refresh_free_ret {A} (a : A) : refresh_free (mret a).
Proof. same_trace. Qed.

Lemma refresh_free_raise {A} (e : exn) : refresh_free (@raise CW A e).
Proof. same_trace. Qed.

Lemma refresh_free_out_of_fuel {A} : refresh_free (@out_of_fuel CW A).
Proof. same_trace. Qed.

Lemma refresh_free_lift_result {A} (x : result A) :
  refresh_free (@lift_result CW A x).
Proof. same_trace. Qed.

Lemma refresh_free_get_client : refresh_free get_client.
Proof. same_trace. Qed.

Lemma refresh_free_get_world : refresh_free get_world.
Proof. same_trace. Qed.

Lemma refresh_free_update_client (f : Client -> Client) :
  refresh_free (update_client f).
Proof. same_trace. Qed.

Lemma refresh_free_set_fs (d : Fs.fs) : refresh_free (in_world (set_fs d)).
Proof. same_trace. Qed.

Lemma refresh_free_urandom (n : nat) : refresh_free (in_world (urandom env n)).
Proof. same_trace. Qed.

(** Running [m] and then [k]: what [k] adds comes after what [m] left. *)
Lemma bind_continues {A B} (m : M CW A) (k : A -> M CW B)
    (s s1 s' : CW) (r1 : result A) (r : result B) :
  (forall a, refresh_free (k a)) ->
  m s = (r1, s1) ->
  (m ≫= k) s = (r, s') ->
  exists evs, trace (snd s') = trace (snd s1) ++ evs
              /\ Forall (fun e => is_refresh e = false) evs.
Proof.
  intros Hk Hm H. unfold mbind, M_bind, bind in H. rewrite Hm in H.
  destruct r1 as [a | e |].
  - exact (Hk a _ _ _ H).
  - inversion H; subst. exists []. rewrite app_nil_r. split; [reflexivity | constructor].
  - inversion H; subst. exists []. rewrite app_nil_r. split; [reflexivity | constructor].
Qed.

Lemma refresh_free_bind {A B} (m : M CW A) (k : A -> M CW B) :
  refresh_free m -> (forall a, refresh_free (k a)) -> refresh_free (m ≫= k).
Proof.
  intros Hm Hk s r s' H.
  destruct (m s) as [r1 s1] eqn:E.
  destruct (Hm _ _ _ E) as (evs1 & Ht1 & Hf1).
  destruct (bind_continues m k s s1 s' r1 r Hk E H) as (evs2 & Ht2 & Hf2).
  exists (evs1 ++ evs2). rewrite Ht2, Ht1, app_assoc.
  split; [reflexivity | apply Forall_app; split; assumption].
Qed.

Lemma refresh_free_try_except {A} (body : M CW A) (handler : exn -> M CW A) :
  refresh_free body -> (forall e, refresh_free (handler e)) ->
  refresh_free (try_except body handler).
Proof.
  intros Hb Hh s r s' H. unfold try_except in H.
  destruct (body s) as [[a | e |] s1] eqn:E.
  - inversion H; subst. exact (Hb _ _ _ E).
  - destruct (Hb _ _ _ E) as (evs1 & Ht1 & Hf1).
    destruct (Hh e _ _ _ H) as (evs2 & Ht2 & Hf2).
    exists (evs1 ++ evs2). rewrite Ht2, Ht1, app_assoc.
    split; [reflexivity | apply Forall_app; split; assumption].
  - inversion H; subst. exact (Hb _ _ _ E).
Qed.

Lemma refresh_free_emit (e : event) :
  is_refresh e = false -> refresh_free (in_world (emit e)).
Proof.
  intros He s r s' H. inversion H; subst. exists [e].
  split; [reflexivity | repeat constructor; exact He].
Qed.

Lemma refresh_free_wrapper_get (obj : TeslaObject) (endpoint : string)
    (params : option kwargs) :
  refresh_free (in_world (_request_wrappers.get env obj endpoint params)).
Proof.
  intros s r s' H. unfold in_world in H. rewrite get_outcome in H.
  destruct (Url.urljoin env (base_url obj) endpoint) as [url | e |].
  - inversion H; subst. eexists [_].
    split; [reflexivity | repeat constructor].
  - inversion H; subst. exists []. rewrite app_nil_r.
    split; [reflexivity | constructor].
  - inversion H; subst. exists []. rewrite app_nil_r.
    split; [reflexivity | constructor].
Qed.

Lemma refresh_calls_unchanged (tr evs : list event) :
  Forall (fun e => is_refresh e = false) evs ->
  refresh_calls (tr ++ evs) = refresh_calls tr.
Proof.
  intros Hf. unfold refresh_calls. rewrite filter_app, length_app.
  induction Hf as [| e evs He _ IH]; [cbn; lia |].
  rewrite filter_cons, decide_False by congruence. exact IH.
Qed.

Ltac refresh_free_step :=
  first
    [ match goal with H : _ |- refresh_free _ => apply H end
    | progress cbv zeta
    | apply refresh_free_ret
    | apply refresh_free_raise
    | apply refresh_free_out_of_fuel
    | apply refresh_free_lift_result
    | apply refresh_free_get_client
    | apply refresh_free_get_world
    | apply refresh_free_update_client
    | apply refresh_free_set_fs
    | apply refresh_free_urandom
    | apply refresh_free_wrapper_get
    | apply refresh_free_emit; reflexivity
    | apply refresh_free_bind; [| intros ?]
    | apply refresh_free_try_except; [| intros ?]
    | match goal with
      | |- refresh_free (if ?b then _ else _) => destruct b
      | |- refresh_free (match ?x with _ => _ end) => destruct x
      | |- refresh_free (let '(_, _) := ?x in _) => destruct x
      end ].

Ltac refresh_free_auto := repeat refresh_free_step.

Lemma refresh_free_set_token (v : pyval) :
  refresh_free (OAuth2Session.set_token env v).
Proof. unfold OAuth2Session.set_token. refresh_free_auto. Qed.

Lemma refresh_free_expired : refresh_free (Client.expired env).
Proof. unfold Client.expired, Client.expires_at. refresh_free_auto. Qed.

Lemma refresh_free_load_cache : refresh_free (Client._load_cache env).
Proof.
  unfold Client._load_cache, Client.set_expired. refresh_free_auto.
Qed.

Lemma refresh_free_dump_cache (v : pyval) : refresh_free (Client._dump_cache v).
Proof.
  unfold Client._dump_cache, try_except_when. refresh_free_auto.
Qed.

Lemma refresh_free_token_updater_with (fetch : M CW pyval) :
  refresh_free fetch -> refresh_free (Client._token_updater_with fetch env).
Proof.
  intros Hfetch. unfold Client._token_updater_with, Client.expires_at.
  pose proof refresh_free_load_cache. pose proof refresh_free_expired.
  pose proof refresh_free_dump_cache. pose proof refresh_free_set_token.
  refresh_free_auto.
Qed.

Lemma refresh_free_authorization_url (path : string) (kw : OAuth2Session.kw_text) :
  refresh_free (Client.authorization_url env path kw).
Proof.
  unfold Client.authorization_url, Client._new_code_verifier,
    OAuth2Session.authorization_url, OAuth2Session.get.
  refresh_free_auto.
Qed.

Lemma refresh_free_authenticate (url : string) :
  refresh_free (Client._authenticate env url).
Proof. unfold Client._authenticate. refresh_free_auto. Qed.

Lemma refresh_free_fetch_token (fuel : nat) :
  forall path kw, refresh_free (Client.fetch_token fuel env path kw).
Proof.
  induction fuel as [| fuel IH]; intros path kw; cbn [Client.fetch_token].
  - apply refresh_free_out_of_fuel.
  - pose proof refresh_free_authorization_url.
    pose proof refresh_free_authenticate.
    pose proof (refresh_free_token_updater_with _ (IH Client.default_token_path [])).
    pose proof refresh_free_set_token.
    unfold OAuth2Session.fetch_token. refresh_free_auto.
Qed.

(** [login()] never calls the library's [refresh_token]. *)
Lemma refresh_free_login (fuel : nat) : refresh_free (Client.login fuel env).
Proof.
  unfold Client.login, Client._token_updater.
  pose proof (refresh_free_fetch_token fuel).
  pose proof (refresh_free_token_updater_with _
                (refresh_free_fetch_token fuel Client.default_token_path [])).
  refresh_free_auto.
Qed.

Lemma bind_get_client {B} (k : Client -> M CW B) (c : Client) (w : World) :
  (get_client ≫= k) (c, w) = k c (c, w).
Proof. reflexivity. Qed.

Lemma bind_ok {A B} (m : M CW A) (k : A -> M CW B) (s s1 : CW) (a : A) :
  m s = (Ok a, s1) -> (m ≫= k) s = k a s1.
Proof. intros H. unfold mbind, M_bind, bind. rewrite H. reflexivity. Qed.

(** With nothing usable in the cache for the session's email, or a
    record the loader drops, [_token_updater] of an unauthorized
    session changes nothing. *)
Lemma token_updater_skips_cache (fuel : nat) (c : Client) (w : World) :
  authorized c = false ->
  Client._load_cache env (c, w) = (Ok (PDict ∅), (c, w)) ->
  Client._token_updater fuel env (c, w) = (Ok tt, (c, w)).
Proof.
  intros Hauth Hload.
  unfold Client._token_updater, Client._token_updater_with.
  rewrite (bind_ok _ _ _ _ _ Hload), bind_get_client.
  rewrite Hauth.
  rewrite (bind_ok _ _ (c, w) (c, w) false eq_refl).
  rewrite lookup_empty. reflexivity.
Qed.

(** The probe is the first thing an unauthorized [fetch_token()] sends,
    and whatever follows it is not a refresh; if the endpoint URL is
    one the library cannot parse, the call raises before sending
    anything. *)
Lemma fetch_token_probes_first (fuel : nat) (c : Client) (w : World)
    (base url : string) (r : result pyval) (s' : CW) :
  authorized c = false ->
  sso_base_url c = PStr base ->
  Url.urljoin env base Client.default_auth_url_path = Ok url ->
  is_secure_transport url = true ->
  Client.fetch_token (S fuel) env Client.default_token_path [] (c, w) = (r, s') ->
  match hinted_url env c w url [] with
  | Ok probe =>
      exists evs,
        trace (snd s') = trace w ++ EvSessionGet probe :: evs
        /\ Forall (fun e => is_refresh e = false) evs
  | Raise e => r = Raise e /\ trace (snd s') = trace w
  | OutOfFuel => False
  end.
Proof.
  intros Hauth Hbase Hurl Hsec Hrun.
  assert (Hshape : exists (k1 : option string -> M CW kwargs)
                          (k2 : kwargs -> M CW pyval),
             Client.fetch_token (S fuel) env Client.default_token_path [] (c, w)
             = ((Client.authorization_url env Client.default_auth_url_path []
                   ≫= k1) ≫= k2) (c, w)
             /\ (forall a, refresh_free (k1 a))
             /\ (forall a, refresh_free (k2 a))).
  { eexists _, _. split; [| split].
    - cbn [Client.fetch_token]. rewrite bind_get_client, Hauth.
      cbn [kw_get]. reflexivity.
    - intros a. cbv beta.
      pose proof refresh_free_authenticate.
      refresh_free_auto.
    - intros a. cbv beta.
      pose proof (refresh_free_token_updater_with _
                    (refresh_free_fetch_token fuel Client.default_token_path [])).
      pose proof (refresh_free_set_token).
      unfold OAuth2Session.fetch_token. refresh_free_auto. }
  destruct Hshape as (k1 & k2 & Hshape & Hk1 & Hk2).
  rewrite Hshape in Hrun.
  destruct (hinted_url env c w url []) as [probe | e |] eqn:Hprobe.
  - destruct (add_params_to_uri_accepts env url probe _
                (unhinted_params env c w []) Hprobe) as [unhinted Hunhinted].
    pose proof (authorization_url_run env c w Client.default_auth_url_path base
                  url [] unhinted probe Hauth Hbase Hurl Hsec Hunhinted Hprobe)
      as Hstart.
    cbv zeta in Hstart.
    assert (Hfirst : exists ra ca,
               Client.authorization_url env Client.default_auth_url_path [] (c, w)
               = (ra, (ca, {| fs := fs w; drawn := (drawn w + 32)%nat;
                              trace := trace w ++ [EvSessionGet probe] |}))).
    { rewrite Hstart. destruct (sso_get env _) as [response | e |];
        [destruct (is_redirect response);
         [destruct (resp_headers response !! "location") as [location |];
          [destruct (Url.urljoin env location "/") |] |] | |];
        eexists _, _; reflexivity. }
    destruct Hfirst as (ra & ca & Hfirst).
    destruct ((Client.authorization_url env Client.default_auth_url_path [] ≫= k1)
                (c, w)) as [r1 s1] eqn:Hinner.
    destruct (bind_continues _ _ _ _ _ _ _ Hk1 Hfirst Hinner) as (evs1 & Ht1 & Hf1).
    destruct (bind_continues _ _ _ _ _ _ _ Hk2 Hinner Hrun) as (evs2 & Ht2 & Hf2).
    exists (evs1 ++ evs2). split; [| apply Forall_app; split; assumption].
    rewrite Ht2, Ht1. cbn [snd trace]. rewrite <- !app_assoc. reflexivity.
  - pose proof (authorization_url_refused env c w Client.default_auth_url_path
                  base url [] e Hauth Hbase Hurl Hsec Hprobe) as Hrefused.
    unfold mbind, M_bind, bind in Hrun. rewrite Hrefused in Hrun.
    inversion Hrun; subst. split; reflexivity.
  - exact (add_params_to_uri_returns env url _ Hprobe).
Qed.

(** C2, as amended.  For a session that is not authorized, whose SSO
    base URL gives an https endpoint, and whose cache file holds a
    record for its email with a numeric [expires_at] in the past:
    [_token_updater] returns with session and world unchanged, so the
    cached token is not surfaced; [login()] then runs [fetch_token],
    whose first external action is the probe of the authorization
    endpoint (unless the endpoint URL is one the library cannot parse,
    in which case [login()] raises without any external action); and
    nothing [login()] does is a call of [refresh_token]. *)
Theorem login_with_expired_cache_reauthorizes (fuel : nat) (c : Client)
    (w : World) (dw : bool) (f : Fs.file) (d r t : gmap string pyval)
    (at_ : pyval) (q : Q) (base url : string) :
  authorized c = false ->
  sso_base_url c = PStr base ->
  Url.urljoin env base Client.default_auth_url_path = Ok url ->
  is_secure_transport url = true ->
  fs w = Fs.Directory dw (Some f) ->
  Fs.readable f = true ->
  Fs.data f = JsonText (PDict d) ->
  d !! email c = Some (PDict r) ->
  r !! "sso" = Some (PDict t) ->
  t !! "expires_at" = Some at_ ->
  to_num at_ = Some q ->
  (q < time env)%Q ->
  Client._token_updater (S fuel) env (c, w) = (Ok tt, (c, w))
  /\ exists (outcome : result unit) (s' : CW),
      Client.login (S fuel) env (c, w) = (outcome, s')
      /\ refresh_calls (trace (snd s')) = refresh_calls (trace w)
      /\ match hinted_url env c w url [] with
         | Ok probe =>
             exists evs : list event,
               trace (snd s') = trace w ++ EvSessionGet probe :: evs
               /\ Forall (fun e => is_refresh e = false) evs
         | Raise e => outcome = Raise e /\ trace (snd s') = trace w
         | OutOfFuel => False
         end.
Proof.
  intros Hauth Hbase Hurl Hsec Hfs Hread Hdata Hrec Hsso Hat Hnum _.
  pose proof (load_cache_numeric env c w dw f d r t at_ q
                Hfs Hread Hdata Hrec Hsso Hat Hnum) as Hload.
  pose proof (token_updater_skips_cache (S fuel) c w Hauth Hload) as Hupd.
  split; [exact Hupd |].
  destruct (Client.login (S fuel) env (c, w)) as [outcome s'] eqn:Hlogin.
  exists outcome, s'.
  unfold Client.login in Hlogin. rewrite (bind_ok _ _ _ _ _ Hupd) in Hlogin.
  destruct (Client.fetch_token (S fuel) env Client.default_token_path [] (c, w))
    as [rf sf] eqn:Hfetch.
  pose proof (fetch_token_probes_first fuel c w base url rf sf
                Hauth Hbase Hurl Hsec Hfetch) as Hprobed.
  assert (Htail : exists evs2,
             trace (snd s') = trace (snd sf) ++ evs2
             /\ Forall (fun e => is_refresh e = false) evs2).
  { eapply bind_continues; [| exact Hfetch | exact Hlogin].
    intros a. cbv beta. refresh_free_auto. }
  destruct Htail as (evs2 & Ht2 & Hf2).
  split; [reflexivity |].
  destruct (hinted_url env c w url []) as [probe | e |]; [| | destruct Hprobed].
  - destruct Hprobed as (evs1 & Ht1 & Hf1).
    assert (Htrace : trace (snd s')
                     = trace w ++ EvSessionGet probe :: (evs1 ++ evs2)).
    { rewrite Ht2, Ht1, <- app_assoc. reflexivity. }
    split.
    + rewrite Htrace. apply refresh_calls_unchanged.
      constructor; [reflexivity | apply Forall_app; split; assumption].
    + exists (evs1 ++ evs2). split; [exact Htrace |].
      apply Forall_app; split; assumption.
  - destruct Hprobed as [-> Ht1].
    unfold mbind, M_bind, bind in Hlogin. rewrite Hfetch in Hlogin.
    inversion Hlogin; subst. rewrite Ht1.
    split; [reflexivity | split; reflexivity].
Qed.

End Login.

Section LoginAtInputs.

Import Examples.

(** C2, counterexample.  The cache holds the record of the session's
    email with [expires_at] ten seconds in the past.  [login()]
    completes, the session ends up with the token the authorization
    flow obtained, and the library's [refresh_token] was not called. *)
Lemma login_does_not_refresh_expired_cache :
  exists s' : CW,
    Client.login 1 env0 (fresh_client, cached_world (PInt 1699999990)) = (Ok tt, s')
    /\ getitem (token (fst s')) "access_token" = Ok (PStr "fresh")
    /\ refresh_calls (trace (snd s')) = 0%nat
    /\ ~ (exists url kw, In (EvRefreshToken url kw) (trace (snd s'))).
Proof.
  eexists. split; [vm_compute; reflexivity |].
  split; [reflexivity |]. split; [reflexivity |].
  intros (url & kw & Hin). cbn in Hin.
  repeat (destruct Hin as [Hin | Hin]; [discriminate Hin |]). exact Hin.
Qed.

Lemma login_with_expired_cache_reauthorizes_witness :
  exists (outcome : result unit) (s' : CW),
    Client.login 1 env0 (fresh_client, cached_world (PInt 1699999990))
    = (outcome, s')
    /\ refresh_calls (trace (snd s')) = 0%nat.
Proof.
  assert (Hurl : Url.urljoin env0 "https://auth.tesla.com"
                   Client.default_auth_url_path
                 = Ok "https://auth.tesla.com/oauth2/v3/authorize")
    by (vm_compute; reflexivity).
  assert (Hsec : OAuth2Session.is_secure_transport
                   "https://auth.tesla.com/oauth2/v3/authorize" = true)
    by (vm_compute; reflexivity).
  destruct (login_with_expired_cache_reauthorizes env0 0 fresh_client
              (cached_world (PInt 1699999990)) true
              (file_holding
                 (cache_of email0
                    (record_of "https://auth.tesla.com/"
                       (token_of "t0ken" (PInt 1699999990)))))
              _ _ _ (PInt 1699999990) (1699999990 # 1) "https://auth.tesla.com"
              "https://auth.tesla.com/oauth2/v3/authorize"
              eq_refl eq_refl Hurl Hsec eq_refl eq_refl eq_refl
              eq_refl eq_refl eq_refl eq_refl eq_refl)
    as (_ & outcome & s' & Hlogin & Hcalls & _).
  exists outcome, s'. split; [exact Hlogin | exact Hcalls].
Defined.

End LoginAtInputs.

(** ** The general statements at concrete inputs *)

Section AtInputs.

Import Examples.

(** The boundary of C8: a token expiring at the very second of the
    clock reading counts as expired. *)
Lemma expired_iff_witness :
  exists b : bool,
    Client.expired env0
      (with_token (token_of "t0ken" (PInt 1700000000)) fresh_client,
       world_with (Fs.NoDirectory true))
    = (Ok b, (with_token (token_of "t0ken" (PInt 1700000000)) fresh_client,
              world_with (Fs.NoDirectory true)))
    /\ b = true.
Proof.
  destruct (expired_iff env0
              (with_token (token_of "t0ken" (PInt 1700000000)) fresh_client)
              (world_with (Fs.NoDirectory true)) _ (PInt 1700000000)
              (1700000000 # 1) eq_refl eq_refl eq_refl)
    as [Hsmall _].
  destruct Hsmall as (b & Hrun & _ & Hboundary).
  - intros z Hz. injection Hz as <-. vm_compute. discriminate.
  - exists b. split; [exact Hrun |]. apply Hboundary. reflexivity.
Defined.

(** C8, counterexample.  With the clock at [2**53], a token whose
    [expires_at] is the integer [2**53 + 1] counts as expired although
    [expires_at - now] is [1]: the subtraction first rounds the integer
    to the float [2**53].  And a session whose [expires_at] is the
    integer [10**400] has no expiry predicate at all: the property
    raises [OverflowError]. *)
Lemma expired_rounds_large_integers :
  let late := with_token (token_of "t0ken" (PInt (2 ^ 53 + 1))) fresh_client in
  let huge := with_token (token_of "t0ken" (PInt (10 ^ 400))) fresh_client in
  let w := world_with (Fs.NoDirectory true) in
  to_num (PInt (2 ^ 53 + 1)) = Some (inject_Z (2 ^ 53 + 1))
  /\ (inject_Z (2 ^ 53 + 1) - time (env_at (inject_Z (2 ^ 53))) == 1)%Q
  /\ ~ (inject_Z (2 ^ 53 + 1) - time (env_at (inject_Z (2 ^ 53))) <= 0)%Q
  /\ Client.expired (env_at (inject_Z (2 ^ 53))) (late, w) = (Ok true, (late, w))
  /\ to_num (PInt (10 ^ 400)) = Some (inject_Z (10 ^ 400))
  /\ Client.expired env0 (huge, w) = (Raise OverflowError, (huge, w)).
Proof.
  cbv zeta.
  split; [reflexivity |]. split; [reflexivity |].
  split; [intros H; vm_compute in H; apply H; reflexivity |].
  split; [vm_compute; reflexivity |]. split; [reflexivity |].
  vm_compute; reflexivity.
Qed.

Lemma energy_base_url_keeps_placeholder_witness :
  exists self : TeslaObject,
    Energy.__init__ env0 authorized_client "STE20210101-00001" = Ok self
    /\ Energy.__init__ env0 authorized_client "STE20219999-99999" = Ok self
    /\ base_url self
       = "https://owner-api.teslamotors.com/api/1/energy_sites/{site_id}/".
Proof.
  eexists.
  destruct (energy_base_url_keeps_placeholder env0 authorized_client
              "STE20210101-00001" _ eq_refl)
    as (Hbase & Hsame & _).
  split; [reflexivity |]. split; [apply Hsame | exact Hbase].
Defined.


End AtInputs.
